(** * GPS step counter (script.js): daily state store and distance accumulator

    A shallow embedding of [script.js].  JavaScript numbers are IEEE-754
    binary64 values, modelled by Rocq's primitive floats; [localStorage] is a
    finite map from strings to strings; the global variables the event
    handlers share ([lastPos], [watchId], the DOM elements they write) are the
    fields of an explicit application state that every handler threads. *)

From Stdlib Require Import ZArith Floats String Ascii Lia DecimalString.
From stdpp Require Import gmap strings.

Set Warnings "-inexact-float".
Local Open Scope Z_scope.

(** ** The JavaScript runtime the script calls into

    [parseInt], [parseFloat], [String], [Number.isFinite] and the [Math]
    rounding functions, after ECMA-262.  These are executable, so that the
    handlers below can be run on concrete storage contents. *)
Module JS.

Definition NaN : float := nan.

(** [Number.isFinite]. *)
Definition isFinite (x : float) : bool := is_finite x.

(** Truthiness of a number ([ToBoolean]): false for [0], [-0] and [NaN]. *)
Definition truthy (x : float) : bool := negb (is_zero x || is_nan x).

(** Truthiness of a string: false for the empty string only. *)
Definition truthy_str (s : string) : bool :=
  match s with EmptyString => false | _ => true end.

(** The Number value of an integer (round to nearest, ties to even). *)
Definition of_Z (z : Z) : float := SF2Prim (binary_normalize prec emax z 0 false).

(** The Number value of [m * 10^e] for [0 <= m], with the sign [neg].
    A negative exponent is a division: the quotient is taken with more than
    [prec] bits and a sticky bit, which rounds like the exact value. *)
Definition of_decimal (neg : bool) (m e : Z) : float :=
  let sgn (z : Z) := if neg then - z else z in
  if m =? 0 then (if neg then PrimFloat.neg_zero else PrimFloat.zero)
  else if 400 <? Z.log2 m / 4 + e then (if neg then neg_infinity else infinity)
  else if Z.log2 m / 3 + 1 + e <? -400 then (if neg then PrimFloat.neg_zero else PrimFloat.zero)
  else if 0 <=? e then SF2Prim (binary_normalize prec emax (sgn (m * 10 ^ e)) 0 false)
  else
    let den := 10 ^ (- e) in
    let s := Z.max 0 (Z.log2 den - Z.log2 m + 66) in
    let q := (m * 2 ^ s) / den in
    let sticky := if (m * 2 ^ s) mod den =? 0 then 0 else 1 in
    SF2Prim (binary_normalize prec emax (sgn (2 * q + sticky)) (- s - 1) neg).

Definition is_digit (c : ascii) : bool :=
  let n := nat_of_ascii c in (48 <=? n)%nat && (n <=? 57)%nat.

Definition digit_val (c : ascii) : Z := Z.of_nat (nat_of_ascii c) - 48.

(** White space and line terminators ([StrWhiteSpaceChar]).  A string is the
    sequence of the bytes of its UTF-8 form, so a white space character takes
    one byte (TAB, LF, VT, FF, CR, SP), two (U+00A0) or three (U+1680,
    U+2000 to U+200A, U+2028, U+2029, U+202F, U+205F, U+3000, U+FEFF). *)
Definition is_space (c : ascii) : bool :=
  let n := nat_of_ascii c in
  (n =? 32)%nat || ((9 <=? n)%nat && (n <=? 13)%nat).

Definition is_space2 (c1 c2 : ascii) : bool :=
  (nat_of_ascii c1 =? 194)%nat && (nat_of_ascii c2 =? 160)%nat.

Definition is_space3 (c1 c2 c3 : ascii) : bool :=
  let n1 := nat_of_ascii c1 in
  let n2 := nat_of_ascii c2 in
  let n3 := nat_of_ascii c3 in
  ((n1 =? 225) && (n2 =? 154) && (n3 =? 128))%nat ||
  ((n1 =? 226) && (n2 =? 128) &&
     (((128 <=? n3) && (n3 <=? 138)) || (n3 =? 168) || (n3 =? 169) || (n3 =? 175)))%nat ||
  ((n1 =? 226) && (n2 =? 129) && (n3 =? 159))%nat ||
  ((n1 =? 227) && (n2 =? 128) && (n3 =? 128))%nat ||
  ((n1 =? 239) && (n2 =? 187) && (n3 =? 191))%nat.

Fixpoint trim_start (s : string) : string :=
  match s with
  | String c1 r1 =>
      if is_space c1 then trim_start r1
      else
        match r1 with
        | String c2 r2 =>
            if is_space2 c1 c2 then trim_start r2
            else
              match r2 with
              | String c3 r3 => if is_space3 c1 c2 c3 then trim_start r3 else s
              | EmptyString => s
              end
        | EmptyString => s
        end
  | EmptyString => s
  end.

(** The longest prefix of decimal digits: its value, its length, the rest. *)
Fixpoint digits (s : string) (acc : Z) (len : Z) : Z * Z * string :=
  match s with
  | String c r => if is_digit c then digits r (10 * acc + digit_val c) (len + 1)
                  else (acc, len, s)
  | EmptyString => (acc, len, s)
  end.

Definition sign (s : string) : bool * string :=
  match s with
  | String "-" r => (true, r)
  | String "+" r => (false, r)
  | _ => (false, s)
  end.

(** What [localStorage.getItem] returns is a string or [null]; both parsers
    apply [ToString] to it first. *)
Definition ToString (v : option string) : string :=
  match v with Some s => s | None => "null" end.

(** [parseInt(v, 10)]. *)
Definition parseInt (v : option string) : float :=
  let '(neg, s) := sign (trim_start (ToString v)) in
  let '(n, len, _) := digits s 0 0 in
  if len =? 0 then NaN
  else if n =? 0 then (if neg then PrimFloat.neg_zero else PrimFloat.zero)
  else of_Z (if neg then - n else n).

(** The optional exponent part of a decimal literal; it counts only when at
    least one digit follows the [e]. *)
Definition exponent (s : string) : Z :=
  match s with
  | String c r =>
      if (c =? "e")%char || (c =? "E")%char then
        let '(eneg, r') := sign r in
        let '(n, len, _) := digits r' 0 0 in
        if len =? 0 then 0 else if eneg then - n else n
      else 0
  | EmptyString => 0
  end.

(** [parseFloat(v)]: the longest prefix that is a [StrDecimalLiteral]. *)
Definition parseFloat (v : option string) : float :=
  let '(neg, s) := sign (trim_start (ToString v)) in
  if String.prefix "Infinity" s then (if neg then neg_infinity else infinity)
  else
    let '(ip, ilen, r) := digits s 0 0 in
    let '(m, flen, r') :=
      match r with
      | String "." f => digits f ip 0
      | _ => (ip, 0, r)
      end in
    if ilen + flen =? 0 then NaN
    else of_decimal neg m (exponent r' - flen).

(** [Math.floor]. *)
Definition floor (x : float) : float :=
  match Prim2SF x with
  | S754_finite s m e =>
      if 0 <=? e then x
      else
        let q := (if s then - Z.pos m else Z.pos m) / 2 ^ (- e) in
        if q =? 0 then (if s then PrimFloat.neg_zero else PrimFloat.zero) else of_Z q
  | _ => x
  end.

(** [Math.round]: the nearest integer, a tie going up. *)
Definition round (x : float) : float :=
  match Prim2SF x with
  | S754_finite s m e =>
      if 0 <=? e then x
      else
        let q := (2 * (if s then - Z.pos m else Z.pos m) + 2 ^ (- e)) / 2 ^ (- e + 1) in
        if q =? 0 then (if s then PrimFloat.neg_zero else PrimFloat.zero) else of_Z q
  | _ => x
  end.

(** [Math.max] and [Math.min] of two numbers. *)
Definition max (x y : float) : float :=
  if is_nan x || is_nan y then NaN
  else if (x <? y)%float then y
  else if (y <? x)%float then x
  else if get_sign x then y else x.

Definition min (x y : float) : float :=
  if is_nan x || is_nan y then NaN
  else if (x <? y)%float then x
  else if (y <? x)%float then y
  else if get_sign x then x else y.

(** *** [String(x)] for a number [x] ([Number::toString], radix 10) *)

(** [10^n <= num/den], exactly. *)
Definition pow10_le (n num den : Z) : bool :=
  if 0 <=? n then 10 ^ n * den <=? num else den <=? num * 10 ^ (- n).

(** The least [n' >= n] with [num/den < 10^n']. *)
Fixpoint find_n (fuel : nat) (n num den : Z) : Z :=
  match fuel with
  | O => n
  | S f => if pow10_le n num den then find_n f (n + 1) num den else n
  end.

(** The decimal digits [s] ([k] of them) and the exponent [n] such that
    [s * 10^(n-k)] is the Number [x = num/den], [k] as small as possible and
    [s] the closest to [x] among those. *)
Fixpoint shortest (fuel : nat) (k n0 num den : Z) (x : float) : Z * Z * Z :=
  let p := k - n0 in
  let N := if 0 <=? p then num * 10 ^ p else num in
  let D := if 0 <=? p then den else den * 10 ^ (- p) in
  let lo := N / D in
  let hi := if N mod D =? 0 then lo else lo + 1 in
  let ok (s : Z) := (of_decimal false s (n0 - k) =? x)%float in
  let norm (s : Z) := if s =? 10 ^ k then (10 ^ (k - 1), n0 + 1, k) else (s, n0, k) in
  match fuel with
  | O => (lo, n0, k)
  | S f =>
      match ok lo, ok hi with
      | true, true =>
          let dl := N - lo * D in
          let dh := hi * D - N in
          if dl <? dh then norm lo
          else if dh <? dl then norm hi
          else if Z.even lo then norm lo else norm hi
      | true, false => norm lo
      | false, true => norm hi
      | false, false => shortest f (k + 1) n0 num den x
      end
  end.

Definition dec (z : Z) : string := NilZero.string_of_uint (N.to_uint (Z.to_N z)).

Fixpoint zeros (n : nat) : string :=
  match n with O => ""%string | S n' => String "0" (zeros n') end.

Definition toStr_pos (x : float) : string :=
  match Prim2SF x with
  | S754_finite _ m e =>
      let num := if 0 <=? e then Z.pos m * 2 ^ e else Z.pos m in
      let den := if 0 <=? e then 1 else 2 ^ (- e) in
      let start := (Z.log2 num - Z.log2 den - 1) * 30103 / 100000 - 1 in
      let n0 := find_n 8 start num den in
      let '(s, n, k) := shortest 17 1 n0 num den x in
      let ds := dec s in
      if (k <=? n) && (n <=? 21) then (ds ++ zeros (Z.to_nat (n - k)))%string
      else if (0 <? n) && (n <=? 21) then
        (substring 0 (Z.to_nat n) ds ++ "." ++
         substring (Z.to_nat n) (Z.to_nat (k - n)) ds)%string
      else if (-6 <? n) && (n <=? 0) then ("0." ++ zeros (Z.to_nat (- n)) ++ ds)%string
      else
        let e10 := n - 1 in
        let es := ((if (e10 <? 0)%Z then "-" else "+") ++ dec (Z.abs e10))%string in
        if k =? 1 then (ds ++ "e" ++ es)%string
        else (substring 0 1 ds ++ "." ++ substring 1 (Z.to_nat (k - 1)) ds ++ "e" ++ es)%string
  | _ => ""%string
  end.

Definition toStr (x : float) : string :=
  if is_nan x then "NaN"%string
  else if is_zero x then "0"%string
  else if is_infinity x then (if get_sign x then "-Infinity" else "Infinity")%string
  else if get_sign x then ("-" ++ toStr_pos (- x)%float)%string
  else toStr_pos x.

End JS.

(** The source's comparison operators, read left to right as in the script. *)
Notation "x >=? y" := (PrimFloat.leb y x) (at level 70, no associativity) : float_scope.
Notation "x >? y" := (PrimFloat.ltb y x) (at level 70, no associativity) : float_scope.

(** ** Constants of the script *)

Module STORAGE_KEYS.
Definition distance : string := "gps_distance_m".
Definition goal : string := "gps_goal".
Definition stride : string := "gps_stride_m".
Definition date : string := "gps_date".
End STORAGE_KEYS.

Definition DEFAULT_GOAL : float := 10000.
Definition DEFAULT_STRIDE : float := 0.78.

Definition MAX_ACCEPTABLE_ACCURACY : float := 25.
Definition MAX_SPEED_MPS : float := 8.

(** ** The daily state store *)

(** [localStorage]: string keys, string values. *)
Abbreviation localStorage := (gmap string string).

Definition getItem (ls : localStorage) (k : string) : option string := ls !! k.
Definition setItem (k v : string) (ls : localStorage) : localStorage := <[k:=v]> ls.

(** The object [loadState] builds.  [steps] is attached last, so it is absent
    ([None]) while the object is being sanitized and saved. *)
Record state := mkState {
  distance : float;
  goal : float;
  stride : float;
  date : string;
  steps : option float
}.

Definition set_distance (d : float) (st : state) : state :=
  mkState d (goal st) (stride st) (date st) (steps st).
Definition set_goal (g : float) (st : state) : state :=
  mkState (distance st) g (stride st) (date st) (steps st).
Definition set_stride (s : float) (st : state) : state :=
  mkState (distance st) (goal st) s (date st) (steps st).
Definition set_date (d : string) (st : state) : state :=
  mkState (distance st) (goal st) (stride st) d (steps st).
Definition set_steps (n : float) (st : state) : state :=
  mkState (distance st) (goal st) (stride st) (date st) (Some n).

(** [a || b] on strings. *)
Definition or_str (a b : string) : string := if JS.truthy_str a then a else b.

(** [v || b] where [v] was read from storage: a string or [null]. *)
Definition or_item (v : option string) (b : string) : string :=
  match v with
  | Some a => or_str a b
  | None => b
  end.

(** [saveState(state)].  [today] is what [todayString()] returns during the
    call. *)
Definition saveState (today : string) (st : state) (ls : localStorage) : localStorage :=
  let ls := setItem STORAGE_KEYS.distance (JS.toStr (distance st)) ls in
  let ls := setItem STORAGE_KEYS.goal (JS.toStr (goal st)) ls in
  let ls := setItem STORAGE_KEYS.stride (JS.toStr (stride st)) ls in
  setItem STORAGE_KEYS.date (or_str (date st) today) ls.

(** [loadState()]: the state it returns and the storage it leaves. *)
Definition loadState (today : string) (ls : localStorage) : state * localStorage :=
  let rawDist := JS.parseFloat (getItem ls STORAGE_KEYS.distance) in
  let goal_ := JS.parseInt (getItem ls STORAGE_KEYS.goal) in
  let stride_ := JS.parseFloat (getItem ls STORAGE_KEYS.stride) in
  let storedDate := getItem ls STORAGE_KEYS.date in
  let st :=
    {| distance := if JS.isFinite rawDist && (rawDist >=? 0)%float then rawDist else 0%float;
       goal := if JS.isFinite goal_ && (goal_ >=? 100)%float then goal_ else DEFAULT_GOAL;
       stride := if JS.isFinite stride_ && (stride_ >? 0)%float then stride_ else DEFAULT_STRIDE;
       date := or_item storedDate today;
       steps := None |} in
  (* auto-reset daily *)
  let '(st, ls) :=
    if negb (String.eqb (date st) today) then
      let st := set_date today (set_distance 0%float st) in
      (st, saveState today st ls)
    else (st, ls) in
  (set_steps (JS.floor (distance st / stride st)%float) st, ls).

(** ** The page

    Each DOM element the script writes is a field holding the value the
    element shows: a string, or a number before the browser formats it
    ([toLocaleString], [toFixed], [formatDistance]).  The width of the
    progress bar and its [aria-valuenow] are the percentage that
    [progressPercentEl] shows; a dash in [speedEl] or [accuracyEl] is [None]. *)
Record dom := mkDom {
  stepCountEl : float;
  goalLabelEl : float;
  remainingLabelEl : float;
  progressPercentEl : float;
  goalMessageEl : string;
  distanceEl : float;
  speedEl : option float;
  accuracyEl : option float;
  statusEl : string;
  goalInputEl : string;
  strideInputEl : string
}.

(** The [extras] argument of [updateUI]; an absent or [null] entry is [None]. *)
Record extras := mkExtras {
  e_accuracy : option float;
  e_speed : option float;
  e_status : option string
}.

Definition no_extras : extras := mkExtras None None None.

(** [updateUI(state, extras)]. *)
Definition updateUI (st : state) (ex : extras) (page : dom) : dom :=
  let steps := JS.floor (distance st / stride st)%float in
  let remaining := JS.max (goal st - steps)%float 0%float in
  let percentRaw :=
    if (goal st >? 0)%float then JS.round ((steps / goal st) * 100)%float else 0%float in
  let percent := JS.min percentRaw 100%float in
  {| stepCountEl := steps;
     goalLabelEl := goal st;
     remainingLabelEl := remaining;
     progressPercentEl := percent;
     goalMessageEl := if (steps >=? goal st)%float then "Goal reached!" else "";
     distanceEl := distance st;
     speedEl := e_speed ex;
     accuracyEl := option_map JS.round (e_accuracy ex);
     statusEl := match e_status ex with
                 | Some s => or_str s (statusEl page)
                 | None => statusEl page
                 end;
     goalInputEl := JS.toStr (goal st);
     strideInputEl := JS.toStr (stride st) |}.

(** ** The running application *)

(** [lastPos = { lat, lon, timestamp }]. *)
Record lastpos := mkLastPos {
  lat : float;
  lon : float;
  timestamp : float
}.

(** A position delivered by [watchPosition]: [pos.coords] and [pos.timestamp]. *)
Record position := mkPosition {
  latitude : float;
  longitude : float;
  accuracy : float;
  speed : option float;
  pos_timestamp : float
}.

(** The storage, the script's two runtime variables, the page, and the texts
    shown by [alert] (latest first). *)
Record app := mkApp {
  storage : localStorage;
  watchId : option Z;
  lastPos : option lastpos;
  page : dom;
  alerts : list string
}.

Definition set_status (s : string) (a : app) : app :=
  let p := page a in
  mkApp (storage a) (watchId a) (lastPos a)
    (mkDom (stepCountEl p) (goalLabelEl p) (remainingLabelEl p) (progressPercentEl p)
       (goalMessageEl p) (distanceEl p) (speedEl p) (accuracyEl p) s
       (goalInputEl p) (strideInputEl p))
    (alerts a).

(** [reportedSpeed || other], where [reportedSpeed] may be [null]. *)
Definition or_speed (reported : option float) (other : option float) : option float :=
  match reported with
  | Some v => if JS.truthy v then Some v else other
  | None => other
  end.

Section Accumulator.

(** [Math.sin], [Math.cos] and [Math.atan2] are approximations that the
    language leaves to the implementation; the results below hold for any. *)
Variables Math_sin Math_cos : float -> float.
Variable Math_atan2 : float -> float -> float.

Definition Math_PI : float := 3.141592653589793.

(** Haversine formula. *)
Definition distanceInMeters (lat1 lon1 lat2 lon2 : float) : float :=
  let R := 6371000%float in (* Earth radius in meters *)
  let toRad (v : float) := ((v * Math_PI) / 180)%float in
  let dLat := toRad (lat2 - lat1)%float in
  let dLon := toRad (lon2 - lon1)%float in
  let a := (Math_sin (dLat / 2) * Math_sin (dLat / 2) +
            Math_cos (toRad lat1) * Math_cos (toRad lat2) *
            Math_sin (dLon / 2) * Math_sin (dLon / 2))%float in
  let c := (2 * Math_atan2 (sqrt a) (sqrt (1 - a)))%float in
  (R * c)%float.

(** The success callback that [startTracking] hands to [watchPosition], run
    on one position.  [today] and [now] are what [todayString()] and
    [Date.now()] return during the call. *)
Definition onPosition (today : string) (now : float) (pos : position) (a : app) : app :=
  let lat_ := latitude pos in
  let lon_ := longitude pos in
  let acc := accuracy pos in (* meters *)
  let reportedSpeed := speed pos in (* may be null *)
  let timestamp_ := if JS.truthy (pos_timestamp pos) then pos_timestamp pos else now in
  let '(st, ls) := loadState today (storage a) in
  if (acc >? MAX_ACCEPTABLE_ACCURACY)%float then
    (* ignore low-accuracy point but show accuracy *)
    mkApp ls (watchId a) (lastPos a)
      (updateUI st (mkExtras (Some acc) reportedSpeed (Some "Low accuracy")) (page a))
      (alerts a)
  else
    match lastPos a with
    | Some lp =>
        let dt := ((timestamp_ - timestamp lp) / 1000)%float in (* seconds *)
        if (dt <=? 0)%float then
          mkApp ls (watchId a) (lastPos a)
            (updateUI st (mkExtras (Some acc) reportedSpeed (Some "Tracking")) (page a))
            (alerts a)
        else
          let d := distanceInMeters (lat lp) (lon lp) lat_ lon_ in
          let impliedSpeed := (d / dt)%float in (* m/s *)
          (* ignore unrealistic jumps *)
          if (impliedSpeed >? MAX_SPEED_MPS)%float then
            (* lastPos is not updated, so the next good point is compared
               to the previous one *)
            mkApp ls (watchId a) (lastPos a)
              (updateUI st
                 (mkExtras (Some acc) (or_speed reportedSpeed (Some impliedSpeed))
                    (Some "Tracking (ignoring jump)")) (page a))
              (alerts a)
          else
            (* ignore tiny noise *)
            let '(st, ls) :=
              if (d >=? 0.5)%float then
                let st := set_distance (distance st + d)%float st in
                (st, saveState today st ls)
              else (st, ls) in
            mkApp ls (watchId a) (Some (mkLastPos lat_ lon_ timestamp_))
              (updateUI st
                 (mkExtras (Some acc) (or_speed reportedSpeed (Some impliedSpeed))
                    (Some "Tracking")) (page a))
              (alerts a)
    | None =>
        (* first accepted position *)
        mkApp ls (watchId a) (Some (mkLastPos lat_ lon_ timestamp_))
          (updateUI st (mkExtras (Some acc) (or_speed reportedSpeed None) (Some "Tracking"))
             (page a))
          (alerts a)
    end.

End Accumulator.

(** The error callback of [watchPosition]. *)
Inductive geo_error :=
| PERMISSION_DENIED
| POSITION_UNAVAILABLE
| OTHER_ERROR (message : string).

Definition onError (err : geo_error) (a : app) : app :=
  let a := match err with
           | PERMISSION_DENIED => set_status "Permission denied" a
           | POSITION_UNAVAILABLE => set_status "Position unavailable" a
           | OTHER_ERROR msg => set_status ("Error: " ++ msg) a
           end in
  mkApp (storage a) None (lastPos a) (page a) (alerts a).

(** [startTracking()]: [geolocation] is [None] when [navigator.geolocation] is
    missing, and otherwise the id that [watchPosition] returns. *)
Definition startTracking (geolocation : option Z) (a : app) : app :=
  match geolocation with
  | None => set_status "Geolocation not available" a
  | Some id =>
      match watchId a with
      | Some _ => a (* already tracking *)
      | None =>
          let a := set_status "Requesting permission..." a in
          mkApp (storage a) (Some id) (lastPos a) (page a) (alerts a)
      end
  end.

Definition pauseTracking (a : app) : app :=
  match watchId a with
  | Some _ => set_status "Paused" (mkApp (storage a) None (lastPos a) (page a) (alerts a))
  | None => a
  end.

(** [resetData()]; [confirmed] is the user's answer to the [confirm] dialog. *)
Definition resetData (today : string) (confirmed : bool) (a : app) : app :=
  if negb confirmed then a
  else
    let '(st, ls) := loadState today (storage a) in
    let st := set_distance 0%float st in
    let st := set_date today st in
    let ls := saveState today st ls in
    mkApp ls (watchId a) None
      (updateUI st (mkExtras None None (Some "Waiting for permission")) (page a))
      (alerts a).

Definition set_goalInput (v : string) (p : dom) : dom :=
  mkDom (stepCountEl p) (goalLabelEl p) (remainingLabelEl p) (progressPercentEl p)
    (goalMessageEl p) (distanceEl p) (speedEl p) (accuracyEl p) (statusEl p)
    v (strideInputEl p).

Definition set_strideInput (v : string) (p : dom) : dom :=
  mkDom (stepCountEl p) (goalLabelEl p) (remainingLabelEl p) (progressPercentEl p)
    (goalMessageEl p) (distanceEl p) (speedEl p) (accuracyEl p) (statusEl p)
    (goalInputEl p) v.

Definition goal_alert : string := "Please enter a valid goal between 100 and 100000.".
Definition stride_alert : string :=
  "Please enter a reasonable stride length (0.2 - 2 meters).".

(** [saveSettings()]. *)
Definition saveSettings (today : string) (a : app) : app :=
  let rawGoal := JS.parseInt (Some (goalInputEl (page a))) in
  let rawStride := JS.parseFloat (Some (strideInputEl (page a))) in
  if negb (JS.isFinite rawGoal) || (rawGoal <? 100)%float || (rawGoal >? 100000)%float then
    let '(st, ls) := loadState today (storage a) in
    mkApp ls (watchId a) (lastPos a)
      (set_goalInput (JS.toStr (goal st)) (page a))
      (goal_alert :: alerts a)
  else if negb (JS.isFinite rawStride) || (rawStride <? 0.2)%float || (rawStride >? 2)%float then
    let '(st, ls) := loadState today (storage a) in
    mkApp ls (watchId a) (lastPos a)
      (set_strideInput (JS.toStr (stride st)) (page a))
      (stride_alert :: alerts a)
  else
    let '(st, ls) := loadState today (storage a) in
    let st := set_goal rawGoal st in
    let st := set_stride rawStride st in
    let ls := saveState today st ls in
    mkApp ls (watchId a) (lastPos a) (updateUI st no_extras (page a)) (alerts a).

(** [init()], once the elements of the page are found. *)
Definition init (today : string) (a : app) : app :=
  let '(st, ls) := loadState today (storage a) in
  let ls := saveState today st ls in (* persist defaults *)
  mkApp ls (watchId a) (lastPos a)
    (updateUI st (mkExtras None None (Some "Waiting for permission")) (page a))
    (alerts a).

(** ** Vocabulary of the specification *)

(** The distance accumulated so far, as [load()] reports it. *)
Definition distanceMeters (today : string) (ls : localStorage) : float :=
  distance (fst (loadState today ls)).

(** The ranges the data model gives the goal and the stride. *)
Definition goal_in_range (g : float) : bool :=
  JS.isFinite g && (g >=? 100)%float && (g <=? 100000)%float.

Definition stride_in_range (s : float) : bool :=
  JS.isFinite s && (s >=? 0.2)%float && (s <=? 2)%float.

(** A calendar date written [YYYY-MM-DD]. *)
Definition is_date (s : string) : bool :=
  match s with
  | String y1 (String y2 (String y3 (String y4 (String "-"
      (String m1 (String m2 (String "-" (String d1 (String d2 EmptyString))))))))) =>
      forallb JS.is_digit [y1; y2; y3; y4; m1; m2; d1; d2]
  | _ => false
  end.

(** A state whose four fields are valid in the sense of the data model. *)
Definition valid_state (st : state) : bool :=
  JS.isFinite (distance st) && (distance st >=? 0)%float &&
  goal_in_range (goal st) && (JS.floor (goal st) =? goal st)%float &&
  stride_in_range (stride st) &&
  is_date (date st).

(** A number survives storage when parsing its [String] form gives it back.
    The language promises this of every Number but [-0], whose [String] is
    ["0"]; for [parseInt] the promise covers the integers below [1e21]. *)
Definition survives_storage (x : float) : Prop :=
  JS.parseFloat (Some (JS.toStr x)) = x.

Definition survives_storage_int (x : float) : Prop :=
  JS.parseInt (Some (JS.toStr x)) = x.

(** The settings that [saveSettings] refuses. *)
Definition goal_refused (rawGoal : float) : bool :=
  negb (JS.isFinite rawGoal) || (rawGoal <? 100)%float || (rawGoal >? 100000)%float.

Definition stride_refused (rawStride : float) : bool :=
  negb (JS.isFinite rawStride) || (rawStride <? 0.2)%float || (rawStride >? 2)%float.

(** The time stamp the callback gives a position: [pos.timestamp || Date.now()]. *)
Definition sampleTime (now : float) (pos : position) : float :=
  if JS.truthy (pos_timestamp pos) then pos_timestamp pos else now.

(** The baseline a position becomes when it is accepted. *)
Definition accepted (now : float) (pos : position) : lastpos :=
  mkLastPos (latitude pos) (longitude pos) (sampleTime now pos).

(** Seconds elapsed between the baseline and a position. *)
Definition elapsed (now : float) (lp : lastpos) (pos : position) : float :=
  ((sampleTime now pos - timestamp lp) / 1000)%float.

(** The callback on a position it does not accept: nothing but [load()]
    touches the storage, and the baseline stays. *)
Definition untouched (today : string) (a a' : app) : Prop :=
  lastPos a' = lastPos a /\
  storage a' = snd (loadState today (storage a)) /\
  distanceMeters today (storage a') = distanceMeters today (storage a).

(** A spec float that is not negative and not [NaN]. *)
Definition SFnonneg (f : spec_float) : Prop :=
  match f with
  | S754_zero _ | S754_infinity false | S754_finite false _ _ => True
  | _ => False
  end.

(** A spec float of sign [s] that is not [NaN]. *)
Definition SFsigned (s : bool) (f : spec_float) : Prop :=
  match f with
  | S754_zero s' | S754_infinity s' | S754_finite s' _ _ => s' = s
  | S754_nan => False
  end.

(** ** Streams of positions *)

Section Streams.

Variables Math_sin Math_cos : float -> float.
Variable Math_atan2 : float -> float -> float.

(** The three tests of the callback that turn a position away, for a
    baseline [lp]: low accuracy, no time elapsed, a jump. *)
Definition rejected (now : float) (lp : lastpos) (pos : position) : bool :=
  let d := distanceInMeters Math_sin Math_cos Math_atan2
             (lat lp) (lon lp) (latitude pos) (longitude pos) in
  (accuracy pos >? MAX_ACCEPTABLE_ACCURACY)%float ||
  (elapsed now lp pos <=? 0)%float ||
  (d / elapsed now lp pos >? MAX_SPEED_MPS)%float.

(** [watchPosition] delivers positions one at a time; each comes with the
    clock reading of its delivery. *)
Fixpoint feed (today : string) (samples : list (float * position)) (a : app) : app :=
  match samples with
  | [] => a
  | (now, pos) :: rest =>
      feed today rest (onPosition Math_sin Math_cos Math_atan2 today now pos a)
  end.

End Streams.

(** ** A reference implementation of the [Math] functions

    Series approximations of [Math.sin], [Math.cos] and [Math.atan2], used to
    run the callback on concrete positions. *)
Module RefMath.

(** [n] further terms of a sine or cosine series: the term after [term],
    whose factorial ends at [i], is [- term * x2 / ((i+1) * (i+2))]. *)
Fixpoint series (n : nat) (term x2 i acc : float) : float :=
  match n with
  | O => acc
  | S n' =>
      let term' := (- term * x2 / ((i + 1) * (i + 2)))%float in
      series n' term' x2 (i + 2)%float (acc + term')%float
  end.

Definition sin (x : float) : float := series 14 x (x * x)%float 1 x.
Definition cos (x : float) : float := series 14 1 (x * x)%float 0 1.

(** [n] further terms of the arctangent series [t - t^3/3 + t^5/5 - ...]. *)
Fixpoint atan_series (n : nat) (pow t2 i acc : float) : float :=
  match n with
  | O => acc
  | S n' =>
      let pow' := (- pow * t2)%float in
      atan_series n' pow' t2 (i + 2)%float (acc + pow' / (i + 2))%float
  end.

(** [atan t = 2 * atan (halve t)]. *)
Definition halve (t : float) : float := (t / (1 + sqrt (1 + t * t)))%float.

Definition atan_unit (t : float) : float :=
  let u := halve (halve t) in
  (4 * atan_series 16 u (u * u) 1 u)%float.

Definition atan (t : float) : float :=
  let a := abs t in
  let r := if (a >? 1)%float then (Math_PI / 2 - atan_unit (1 / a))%float
           else atan_unit a in
  if (t <? 0)%float then (- r)%float else r.

Definition atan2 (y x : float) : float :=
  if (x >? 0)%float then atan (y / x)
  else if (x <? 0)%float then
    (if (y <? 0)%float then atan (y / x) - Math_PI else atan (y / x) + Math_PI)%float
  else if (y >? 0)%float then (Math_PI / 2)%float
  else if (y <? 0)%float then (- (Math_PI / 2))%float
  else 0%float.

(** The script's distance and callback, run with these functions. *)
Definition haversine : float -> float -> float -> float -> float :=
  distanceInMeters sin cos atan2.

Definition callback : string -> float -> position -> app -> app :=
  onPosition sin cos atan2.

End RefMath.

(** ** Sample data *)

Module Sample.

Definition today : string := "2024-01-02".
Definition yesterday : string := "2024-01-01".

(** A storage as [saveState] leaves it. *)
Definition store (dist goal_ stride_ date_ : string) : localStorage :=
  <[STORAGE_KEYS.date := date_]>
    (<[STORAGE_KEYS.stride := stride_]>
       (<[STORAGE_KEYS.goal := goal_]>
          (<[STORAGE_KEYS.distance := dist]> ∅))).

Definition blank : dom := mkDom 0 0 0 0 "" 0 None None "" "" "".

Definition app_of (ls : localStorage) (lp : option lastpos) : app :=
  mkApp ls (Some 1) lp blank [].

(** A baseline [A] at time 0; [B], a degree away one second later; [C] and
    [N], about 111 m and 0.33 m from [A], a hundred seconds after it; [L],
    a fix of low accuracy; [E], a fix stamped before [A]. *)
Definition A : lastpos := mkLastPos 51.5 0 1000000.
Definition B : position := mkPosition 52.5 0 10 None 1001000.
Definition C : position := mkPosition 51.501 0 10 None 1100000.
Definition N : position := mkPosition 51.500003 0 10 None 1100000.
Definition L : position := mkPosition 51.501 0 30 None 1100000.
Definition E : position := mkPosition 51.501 0 10 None 999000.

Definition walking : app := app_of (store "5000" "10000" "0.78" today) (Some A).

Definition settings (goal_ stride_ : string) : app :=
  mkApp (store "5000" "10000" "0.78" today) None None
    (set_strideInput stride_ (set_goalInput goal_ blank)) [].

End Sample.

(** * Facts

    ** Rounding never goes below a representable lower bound

    The lemmas of this section follow [SpecFloat]'s rounding of a positive
    mantissa step by step; [prec] and [emax] are those of any format. *)

Section RoundingBound.

Variables prec emax : Z.
Hypothesis prec_pos : 0 < prec.

Local Abbreviation fexp := (SpecFloat.fexp prec emax).
Local Abbreviation emin := (SpecFloat.emin prec emax).

Lemma digits2_pos_bounds (p : positive) :
  2 ^ (Z.pos (digits2_pos p) - 1) <= Z.pos p < 2 ^ Z.pos (digits2_pos p).
Proof.
  induction p as [p IH | p IH |]; cbn [digits2_pos].
  - rewrite Pos2Z.inj_succ.
    replace (Z.succ (Z.pos (digits2_pos p)) - 1) with (Z.succ (Z.pos (digits2_pos p) - 1)) by lia.
    rewrite !Z.pow_succ_r by lia. lia.
  - rewrite Pos2Z.inj_succ.
    replace (Z.succ (Z.pos (digits2_pos p)) - 1) with (Z.succ (Z.pos (digits2_pos p) - 1)) by lia.
    rewrite !Z.pow_succ_r by lia. lia.
  - cbn. lia.
Qed.

Lemma digits2_pos_le (p q : positive) :
  Z.pos p <= Z.pos q -> Z.pos (digits2_pos p) <= Z.pos (digits2_pos q).
Proof.
  intros Hle.
  pose proof (digits2_pos_bounds p) as [Hp _].
  pose proof (digits2_pos_bounds q) as [_ Hq].
  assert (H : 2 ^ (Z.pos (digits2_pos p) - 1) < 2 ^ Z.pos (digits2_pos q)) by lia.
  apply Z.pow_lt_mono_r_iff in H; lia.
Qed.

Lemma digits2_pos_shift (p q : positive) (k : Z) :
  0 <= k -> Z.pos p * 2 ^ k <= Z.pos q ->
  Z.pos (digits2_pos p) + k <= Z.pos (digits2_pos q).
Proof.
  intros Hk Hle.
  pose proof (digits2_pos_bounds p) as [Hp _].
  pose proof (digits2_pos_bounds q) as [_ Hq].
  assert (H : 2 ^ (Z.pos (digits2_pos p) - 1 + k) < 2 ^ Z.pos (digits2_pos q)).
  { rewrite Z.pow_add_r by lia.
    assert (0 < 2 ^ k) by (apply Z.pow_pos_nonneg; lia). nia. }
  apply Z.pow_lt_mono_r_iff in H; lia.
Qed.

Lemma fexp_mono (a b : Z) : a <= b -> fexp a <= fexp b.
Proof. unfold SpecFloat.fexp. lia. Qed.

Lemma fexp_lt (a : Z) : emin < a -> fexp a < a.
Proof. unfold SpecFloat.fexp. lia. Qed.

Lemma fexp_emin (a : Z) : emin <= fexp a.
Proof. unfold SpecFloat.fexp. lia. Qed.

Lemma shr_1_m (mrs : shr_record) :
  0 <= shr_m mrs -> shr_m (shr_1 mrs) = shr_m mrs / 2.
Proof.
  destruct mrs as [m r s]. cbn [shr_m]. intros Hm.
  destruct m as [| [p | p |] | p]; cbn [shr_1 shr_m]; try lia.
  - reflexivity.
  - apply Z.div_unique with (r := 1); lia.
  - apply Z.div_unique with (r := 0); lia.
  - reflexivity.
Qed.

Lemma iter_shr_1_m (p : positive) (mrs : shr_record) :
  0 <= shr_m mrs -> shr_m (SpecFloat.iter_pos shr_1 p mrs) = shr_m mrs / 2 ^ Z.pos p.
Proof.
  revert mrs.
  assert (Hnn : forall m k, 0 <= m -> 0 <= m / 2 ^ Z.pos k).
  { intros m k Hm. apply Z.div_pos; [lia | apply Z.pow_pos_nonneg; lia]. }
  induction p as [p IH | p IH |]; intros mrs Hm; cbn [SpecFloat.iter_pos].
  - rewrite IH, IH, shr_1_m by (rewrite ?IH, ?shr_1_m; try apply Hnn; try lia;
                                rewrite ?shr_1_m by lia; apply Z.div_pos; lia).
    rewrite !Z.div_div by (try apply Z.pow_pos_nonneg; lia).
    f_equal.
    replace (Z.pos p~1) with (1 + Z.pos p + Z.pos p) by lia.
    rewrite !Z.pow_add_r by lia. lia.
  - rewrite IH, IH by (rewrite ?IH; try apply Hnn; lia).
    rewrite !Z.div_div by (try apply Z.pow_pos_nonneg; lia).
    f_equal.
    replace (Z.pos p~0) with (Z.pos p + Z.pos p) by lia.
    rewrite !Z.pow_add_r by lia. lia.
  - apply shr_1_m; assumption.
Qed.

Lemma shr_fexp_spec (m e : Z) (l : location) :
  0 <= m ->
  let n := Z.max 0 (fexp (Zdigits2 m + e) - e) in
  shr_m (fst (shr_fexp prec emax m e l)) = m / 2 ^ n /\
  snd (shr_fexp prec emax m e l) = e + n.
Proof.
  intros Hm n. unfold shr_fexp, shr. subst n.
  assert (Hrec : shr_m (shr_record_of_loc m l) = m) by (destruct l as [| []]; reflexivity).
  destruct (fexp (Zdigits2 m + e) - e) as [| p | p] eqn:E; cbn [fst snd].
  - rewrite Hrec. cbn. rewrite Z.div_1_r. lia.
  - rewrite iter_shr_1_m by lia. rewrite Hrec.
    replace (Z.max 0 (Z.pos p)) with (Z.pos p) by lia. split; reflexivity.
  - rewrite Hrec. replace (Z.max 0 (Z.neg p)) with 0 by lia.
    rewrite Z.pow_0_r, Z.div_1_r. lia.
Qed.

Lemma round_nearest_even_ge (m : Z) (l : location) : m <= round_nearest_even m l.
Proof. destruct l as [| []]; cbn; try lia. destruct (Z.even m); lia. Qed.

(** A float [(mx, ex)] in canonical form, a positive mantissa [mz] at an
    exponent [ez <= ex] whose value is at least that of the float: rounding
    [(mz, ez)], from any location, does not go below the float. *)
Lemma binary_round_aux_ge (s : bool) (mx : positive) (ex : Z) (mz : positive) (ez : Z)
    (l : location) :
  canonical_mantissa prec emax mx ex = true ->
  ez <= ex ->
  Z.pos mx * 2 ^ (ex - ez) <= Z.pos mz ->
  binary_round_aux prec emax s (Z.pos mz) ez l = S754_infinity s \/
  exists m' e', binary_round_aux prec emax s (Z.pos mz) ez l = S754_finite s m' e' /\
                (ex < e' \/ (e' = ex /\ (mx <= m')%positive)).
Proof.
  intros Hcan Hez Hval.
  unfold canonical_mantissa in Hcan. apply Z.eqb_eq in Hcan.
  pose proof (digits2_pos_shift mx mz (ex - ez) ltac:(lia) Hval) as Hdig.
  pose proof (fexp_emin (Z.pos (digits2_pos mx) + ex)) as Hemin.
  unfold binary_round_aux.
  pose proof (shr_fexp_spec (Z.pos mz) ez l ltac:(lia)) as [Hm1 He1].
  destruct (shr_fexp prec emax (Z.pos mz) ez l) as [mrs1 e1]. cbn [fst snd] in Hm1, He1.
  cbn [Zdigits2] in Hm1, He1.
  set (D := Z.pos (digits2_pos mz) + ez) in *.
  assert (HD : fexp (Z.pos (digits2_pos mx) + ex) <= fexp D) by (apply fexp_mono; lia).
  assert (HDlt : fexp D < D) by (apply fexp_lt; lia).
  replace (Z.max 0 (fexp D - ez)) with (fexp D - ez) in Hm1, He1 by lia.
  assert (He1x : ex <= e1) by lia.
  assert (H1 : 1 <= shr_m mrs1).
  { rewrite Hm1.
    pose proof (digits2_pos_bounds mz) as [Hlo _].
    assert (Hpw : 2 ^ (fexp D - ez) <= 2 ^ (Z.pos (digits2_pos mz) - 1))
      by (apply Z.pow_le_mono_r; lia).
    apply Z.div_le_lower_bound; [apply Z.pow_pos_nonneg; lia | lia]. }
  assert (Hmx1 : e1 = ex -> Z.pos mx <= shr_m mrs1).
  { intros Heq. rewrite Hm1.
    replace (fexp D - ez) with (ex - ez) by lia.
    apply Z.div_le_lower_bound; [apply Z.pow_pos_nonneg; lia | lia]. }
  set (m2 := round_nearest_even (shr_m mrs1) (loc_of_shr_record mrs1)).
  pose proof (round_nearest_even_ge (shr_m mrs1) (loc_of_shr_record mrs1)) as Hm2.
  fold m2 in Hm2.
  pose proof (shr_fexp_spec m2 e1 loc_Exact ltac:(lia)) as [Hm3 He3].
  destruct (shr_fexp prec emax m2 e1 loc_Exact) as [mrs3 e3]. cbn [fst snd] in Hm3, He3.
  destruct m2 as [| p2 | p2] eqn:Em2; try lia.
  cbn [Zdigits2] in Hm3, He3.
  set (D2 := Z.pos (digits2_pos p2) + e1) in *.
  assert (HD2 : fexp D2 < D2) by (apply fexp_lt; lia).
  assert (H3 : 1 <= shr_m mrs3 /\ (e3 = e1 -> shr_m mrs3 = Z.pos p2)).
  { rewrite Hm3. split.
    - pose proof (digits2_pos_bounds p2) as [Hlo _].
      assert (Hpw : 2 ^ Z.max 0 (fexp D2 - e1) <= 2 ^ (Z.pos (digits2_pos p2) - 1))
        by (apply Z.pow_le_mono_r; lia).
      apply Z.div_le_lower_bound; [apply Z.pow_pos_nonneg; lia | lia].
    - intros Heq. replace (Z.max 0 (fexp D2 - e1)) with 0 by lia.
      rewrite Z.pow_0_r, Z.div_1_r. reflexivity. }
  destruct H3 as [H3 H3eq].
  destruct (shr_m mrs3) as [| m3 | m3] eqn:Em3; try lia.
  destruct (e3 <=? emax - prec); [right | left; reflexivity].
  exists m3, e3. split; [reflexivity |].
  destruct (Z.eq_dec e3 ex) as [Heq | Hne]; [right | left; lia].
  split; [assumption |].
  assert (e3 = e1) by lia.
  specialize (H3eq H). specialize (Hmx1 ltac:(lia)). 
  change (Z.pos mx <= Z.pos m3). lia.
Qed.

Lemma shl_align_spec (m : positive) (e e' : Z) :
  let r := shl_align m e e' in
  snd r = Z.min e e' /\ Z.pos (fst r) = Z.pos m * 2 ^ (e - snd r).
Proof.
  unfold shl_align. destruct (e' - e) as [| d | d] eqn:E; cbn [fst snd].
  - replace (Z.min e e') with e by lia. rewrite Z.sub_diag. cbn. lia.
  - replace (Z.min e e') with e by lia. rewrite Z.sub_diag. cbn. lia.
  - replace (Z.min e e') with e' by lia. split; [reflexivity |].
    replace (e - e') with (Z.pos d) by lia.
    change (Pos.iter xO m d) with (shift_pos d m).
    rewrite shift_pos_correct. change (Zpower_pos 2 d) with (2 ^ Z.pos d). lia.
Qed.

Lemma binary_round_ge (s : bool) (mx : positive) (ex : Z) (mz : positive) (ez : Z) :
  canonical_mantissa prec emax mx ex = true ->
  ez <= ex ->
  Z.pos mx * 2 ^ (ex - ez) <= Z.pos mz ->
  binary_round prec emax s mz ez = S754_infinity s \/
  exists m' e', binary_round prec emax s mz ez = S754_finite s m' e' /\
                (ex < e' \/ (e' = ex /\ (mx <= m')%positive)).
Proof.
  intros Hcan Hez Hval. unfold binary_round.
  pose proof (shl_align_spec mz ez (fexp (Z.pos (digits2_pos mz) + ez))) as [He Hm].
  destruct (shl_align mz ez (fexp (Z.pos (digits2_pos mz) + ez))) as [mz' ez'].
  cbn [fst snd] in He, Hm.
  apply binary_round_aux_ge; [assumption | lia |].
  rewrite Hm.
  replace (ex - ez') with ((ex - ez) + (ez - ez')) by lia.
  rewrite Z.pow_add_r by lia.
  assert (0 < 2 ^ (ez - ez')) by (apply Z.pow_pos_nonneg; lia). nia.
Qed.

(** The sum of two positive floats, the first in canonical form, is
    infinite or a positive float at or above the first. *)
Lemma SFadd_finite_bound (mx : positive) (ex : Z) (my : positive) (ey : Z) :
  canonical_mantissa prec emax mx ex = true ->
  let sum := SFadd prec emax (S754_finite false mx ex) (S754_finite false my ey) in
  sum = S754_infinity false \/
  exists m' e', sum = S754_finite false m' e' /\
                (ex < e' \/ (e' = ex /\ (mx <= m')%positive)).
Proof.
  intros Hcan. cbn [SFadd cond_Zopp].
  pose proof (shl_align_spec mx ex (Z.min ex ey)) as [Hxe Hxm].
  pose proof (shl_align_spec my ey (Z.min ex ey)) as [Hye Hym].
  destruct (shl_align mx ex (Z.min ex ey)) as [mx' ex'].
  destruct (shl_align my ey (Z.min ex ey)) as [my' ey'].
  cbn [fst snd] in *.
  change (Z.pos mx' + Z.pos my') with (Z.pos (mx' + my')). cbn [binary_normalize].
  apply binary_round_ge; [assumption | lia |].
  rewrite Pos2Z.inj_add, Hxm. replace ex' with (Z.min ex ey) by lia. lia.
Qed.


Lemma SFadd_finite_nonneg (mx : positive) (ex : Z) (my : positive) (ey : Z) :
  canonical_mantissa prec emax mx ex = true ->
  SFnonneg (SFadd prec emax (S754_finite false mx ex) (S754_finite false my ey)).
Proof.
  intros Hcan.
  destruct (SFadd_finite_bound mx ex my ey Hcan) as [Hinf | (m' & e' & Hfin & _)].
  - rewrite Hinf. exact I.
  - rewrite Hfin. exact I.
Qed.

End RoundingBound.

(** ** Facts about JavaScript number comparison and addition *)

Lemma SFcompare_antisym (f g : spec_float) :
  SFcompare g f = option_map CompOpp (SFcompare f g).
Proof.
  destruct f as [sf | sf | | sf mf ef], g as [sg | sg | | sg mg eg]; cbn;
    try reflexivity;
    repeat match goal with s : bool |- _ => destruct s end; cbn; try reflexivity.
  - rewrite (Z.compare_antisym eg ef).
    destruct (eg ?= ef) eqn:E; cbn; try reflexivity.
    change (Pos.compare_cont Eq mg mf) with (mg ?= mf)%positive.
    change (Pos.compare_cont Eq mf mg) with (mf ?= mg)%positive.
    rewrite (Pos.compare_antisym mf mg). destruct (mf ?= mg)%positive; reflexivity.
  - rewrite (Z.compare_antisym eg ef).
    destruct (eg ?= ef) eqn:E; cbn; try reflexivity.
    change (Pos.compare_cont Eq mg mf) with (mg ?= mf)%positive.
    change (Pos.compare_cont Eq mf mg) with (mf ?= mg)%positive.
    rewrite (Pos.compare_antisym mf mg). reflexivity.
Qed.

Lemma ltb_not_geb (x y : float) : (x <? y)%float = true -> (x >=? y)%float = false.
Proof.
  rewrite ltb_spec, leb_spec. unfold SFltb, SFleb.
  rewrite (SFcompare_antisym (Prim2SF x) (Prim2SF y)).
  destruct (SFcompare (Prim2SF x) (Prim2SF y)) as [[]|]; cbn; congruence.
Qed.

Lemma leb_zero_nonneg (x : float) : (x >=? 0)%float = true <-> SFnonneg (Prim2SF x).
Proof.
  rewrite leb_spec. change (Prim2SF 0) with (S754_zero false).
  destruct (Prim2SF x) as [s | [] | | [] m e]; cbn; intuition congruence.
Qed.




Lemma add_nonneg_nonneg (x d : float) :
  (x >=? 0)%float = true -> (d >=? 0)%float = true -> (x + d >=? 0)%float = true.
Proof.
  intros Hx Hd. apply leb_zero_nonneg. apply leb_zero_nonneg in Hx, Hd.
  rewrite add_spec.
  pose proof (Prim2SF_valid x) as Hv.
  destruct (Prim2SF x) as [sx | [] | | [] mx ex]; cbn in Hx; try contradiction;
    destruct (Prim2SF d) as [sd | [] | | [] md ed]; cbn in Hd; try contradiction;
    try exact I.
  - destruct sx, sd; exact I.
  - cbn in Hv. apply andb_true_iff in Hv as [Hcan _].
    apply (SFadd_finite_nonneg prec emax ltac:(reflexivity) mx ex md ed Hcan).
Qed.

Lemma geb_half_geb_zero (d : float) : (d >=? 0.5)%float = true -> (d >=? 0)%float = true.
Proof.
  intros H. apply leb_zero_nonneg. rewrite leb_spec in H.
  change (Prim2SF 0.5) with (S754_finite false 4503599627370496 (-53)) in H.
  destruct (Prim2SF d) as [s | [] | | [] m e]; cbn in *; try exact I; congruence.
Qed.


(** ** The daily state store *)

Lemma getItem_saveState_distance (today : string) (st : state) (ls : localStorage) :
  getItem (saveState today st ls) STORAGE_KEYS.distance = Some (JS.toStr (distance st)).
Proof.
  unfold getItem, saveState, setItem.
  rewrite !lookup_insert_ne by discriminate. apply lookup_insert_eq.
Qed.

Lemma getItem_saveState_goal (today : string) (st : state) (ls : localStorage) :
  getItem (saveState today st ls) STORAGE_KEYS.goal = Some (JS.toStr (goal st)).
Proof.
  unfold getItem, saveState, setItem.
  rewrite !lookup_insert_ne by discriminate. apply lookup_insert_eq.
Qed.

Lemma getItem_saveState_stride (today : string) (st : state) (ls : localStorage) :
  getItem (saveState today st ls) STORAGE_KEYS.stride = Some (JS.toStr (stride st)).
Proof.
  unfold getItem, saveState, setItem.
  rewrite !lookup_insert_ne by discriminate. apply lookup_insert_eq.
Qed.

Lemma getItem_saveState_date (today : string) (st : state) (ls : localStorage) :
  getItem (saveState today st ls) STORAGE_KEYS.date = Some (or_str (date st) today).
Proof. unfold getItem, saveState, setItem. apply lookup_insert_eq. Qed.

Create Rewrite HintDb saved.
#[local] Hint Rewrite getItem_saveState_distance getItem_saveState_goal
  getItem_saveState_stride getItem_saveState_date : saved.

Lemma or_str_same (s : string) : or_str s s = s.
Proof. unfold or_str. destruct (JS.truthy_str s); reflexivity. Qed.

Lemma or_str_truthy (a b : string) : a <> ""%string -> or_str a b = a.
Proof. unfold or_str. destruct a; [congruence | reflexivity]. Qed.

(** The numbers [loadState] reads and the state it builds before the daily
    reset. *)
Lemma loadState_unfold (today : string) (ls : localStorage) :
  loadState today ls =
    let rawDist := JS.parseFloat (getItem ls STORAGE_KEYS.distance) in
    let goal_ := JS.parseInt (getItem ls STORAGE_KEYS.goal) in
    let stride_ := JS.parseFloat (getItem ls STORAGE_KEYS.stride) in
    let d := if JS.isFinite rawDist && (rawDist >=? 0)%float then rawDist else 0%float in
    let g := if JS.isFinite goal_ && (goal_ >=? 100)%float then goal_ else DEFAULT_GOAL in
    let s := if JS.isFinite stride_ && (stride_ >? 0)%float then stride_ else DEFAULT_STRIDE in
    if String.eqb (or_item (getItem ls STORAGE_KEYS.date) today) today
    then (mkState d g s (or_item (getItem ls STORAGE_KEYS.date) today)
            (Some (JS.floor (d / s)%float)), ls)
    else (mkState 0%float g s today (Some (JS.floor (0 / s)%float)),
          saveState today (mkState 0%float g s today None) ls).
Proof.
  unfold loadState. cbn [date].
  destruct (String.eqb (or_item (getItem ls STORAGE_KEYS.date) today) today); reflexivity.
Qed.

(** No day change, no write. *)
Lemma loadState_same_day (today : string) (ls : localStorage) :
  or_item (getItem ls STORAGE_KEYS.date) today = today ->
  snd (loadState today ls) = ls.
Proof.
  intros H. rewrite loadState_unfold. cbv zeta. rewrite H, String.eqb_refl. reflexivity.
Qed.

Lemma loadState_date (today : string) (ls : localStorage) :
  date (fst (loadState today ls)) = today.
Proof.
  rewrite loadState_unfold. cbv zeta.
  destruct (String.eqb _ today) eqn:E; cbn; [apply String.eqb_eq, E | reflexivity].
Qed.

(** The storage [load()] leaves is one on which [load()] writes nothing. *)
Lemma loadState_settled (today : string) (ls : localStorage) :
  or_item (getItem (snd (loadState today ls)) STORAGE_KEYS.date) today = today.
Proof.
  rewrite loadState_unfold. cbv zeta.
  destruct (String.eqb _ today) eqn:E; cbn [snd].
  - apply String.eqb_eq, E.
  - rewrite getItem_saveState_date. cbn [or_item date]. rewrite !or_str_same. reflexivity.
Qed.

(** What [load()] wrote, if anything, leaves the distance it reports as it
    was. *)
Lemma distanceMeters_settled (today : string) (ls : localStorage) :
  distanceMeters today (snd (loadState today ls)) = distanceMeters today ls.
Proof.
  unfold distanceMeters. rewrite (loadState_unfold today ls). cbv zeta.
  destruct (String.eqb _ today) eqn:E; cbn [fst snd].
  { rewrite loadState_unfold. cbv zeta. rewrite E. reflexivity. }
  rewrite loadState_unfold. cbv zeta.
  rewrite getItem_saveState_date, getItem_saveState_distance. cbn [date distance or_item].
  rewrite !or_str_same, String.eqb_refl. reflexivity.
Qed.

(** Whatever is stored, the numbers [load()] returns pass its own checks. *)
Lemma loadState_fields_ok (today : string) (ls : localStorage) :
  let st := fst (loadState today ls) in
  (JS.isFinite (distance st) && (distance st >=? 0)%float = true) /\
  (JS.isFinite (goal st) && (goal st >=? 100)%float = true) /\
  (JS.isFinite (stride st) && (stride st >? 0)%float = true).
Proof.
  rewrite loadState_unfold. cbv zeta.
  destruct (String.eqb _ today); cbn [fst distance goal stride];
    repeat split;
    repeat match goal with
      | |- context [if ?c then _ else _] => let E := fresh "E" in destruct c eqn:E
      end; try assumption; reflexivity.
Qed.

Lemma geb_fifth_gtb_zero (s : float) : (s >=? 0.2)%float = true -> (s >? 0)%float = true.
Proof.
  rewrite leb_spec, ltb_spec.
  change (Prim2SF 0.2) with (S754_finite false 7205759403792794 (-55)).
  change (Prim2SF 0) with (S754_zero false).
  destruct (Prim2SF s) as [sg | [] | | [] m e]; cbn; congruence.
Qed.

(** C1, as the code has it.  The state [load()] returns takes each number
    from storage when it passes that field's own check, and the default
    otherwise: the goal when it is finite and at least 100 (no upper bound),
    the stride when it is finite and positive (not only within 0.2..2), the
    distance when it is finite, not negative and the stored day is today; a
    missing item parses to [NaN] and gets the default.  The date returned is
    always today. *)
Theorem loadState_sanitizes (today : string) (ls : localStorage) :
  let st := fst (loadState today ls) in
  let rawDist := JS.parseFloat (getItem ls STORAGE_KEYS.distance) in
  let g := JS.parseInt (getItem ls STORAGE_KEYS.goal) in
  let s := JS.parseFloat (getItem ls STORAGE_KEYS.stride) in
  let day := or_item (getItem ls STORAGE_KEYS.date) today in
  (goal st = g /\ JS.isFinite g = true /\ (g >=? 100)%float = true \/
   goal st = DEFAULT_GOAL /\ (JS.isFinite g = false \/ (g >=? 100)%float = false)) /\
  (stride st = s /\ JS.isFinite s = true /\ (s >? 0)%float = true \/
   stride st = DEFAULT_STRIDE /\ (JS.isFinite s = false \/ (s >? 0)%float = false)) /\
  (distance st = rawDist /\ JS.isFinite rawDist = true /\ (rawDist >=? 0)%float = true /\
     day = today \/
   distance st = 0%float /\
     (JS.isFinite rawDist = false \/ (rawDist >=? 0)%float = false \/ day <> today)) /\
  date st = today /\
  JS.parseInt None = JS.NaN /\ JS.parseFloat None = JS.NaN /\ JS.isFinite JS.NaN = false.
Proof.
  cbv zeta. rewrite loadState_unfold. cbv zeta.
  repeat split.
  - destruct (String.eqb _ today); cbn [fst goal];
      destruct (JS.isFinite (JS.parseInt _)); destruct (_ >=? 100)%float; cbn; auto.
  - destruct (String.eqb _ today); cbn [fst stride];
      destruct (JS.isFinite (JS.parseFloat (getItem ls STORAGE_KEYS.stride)));
      destruct (_ >? 0)%float; cbn; auto.
  - destruct (String.eqb _ today) eqn:E; cbn [fst distance].
    + apply String.eqb_eq in E.
      destruct (JS.isFinite (JS.parseFloat (getItem ls STORAGE_KEYS.distance)));
        destruct (_ >=? 0)%float; cbn; auto.
    + apply String.eqb_neq in E. auto.
  - destruct (String.eqb _ today) eqn:E; cbn [fst date];
      [apply String.eqb_eq, E | reflexivity].
Qed.

(** C1, counterexample.  A stored goal of 200000 and a stored stride of 5 lie
    outside 100..100000 and 0.2..2, and [load()] returns them, not the
    defaults 10000 and 0.78. *)
Lemma loadState_keeps_out_of_range :
  let ls := Sample.store "12" "200000" "5" Sample.today in
  let st := fst (loadState Sample.today ls) in
  goal_in_range (JS.parseInt (getItem ls STORAGE_KEYS.goal)) = false /\
  goal st = 200000%float /\ (goal st =? DEFAULT_GOAL)%float = false /\
  stride_in_range (JS.parseFloat (getItem ls STORAGE_KEYS.stride)) = false /\
  stride st = 5%float /\ (stride st =? DEFAULT_STRIDE)%float = false.
Proof. vm_compute. repeat split; reflexivity. Qed.

(** C3.  A stored date [d] other than today: [load()] returns distance 0 and
    today's date and writes them at once, so that the next [load()] returns
    distance 0 and today again, and writes nothing. *)
Theorem loadState_day_rollover (today d : string) (ls : localStorage) :
  getItem ls STORAGE_KEYS.date = Some d -> d <> ""%string -> d <> today ->
  let st := fst (loadState today ls) in
  let ls' := snd (loadState today ls) in
  let again := loadState today ls' in
  distance st = 0%float /\ date st = today /\
  getItem ls' STORAGE_KEYS.distance = Some "0"%string /\
  getItem ls' STORAGE_KEYS.date = Some today /\
  distance (fst again) = 0%float /\ date (fst again) = today /\ snd again = ls'.
Proof.
  intros Hd Hne Hday. cbv zeta.
  assert (E : String.eqb (or_item (getItem ls STORAGE_KEYS.date) today) today = false).
  { rewrite Hd. cbn [or_item]. rewrite or_str_truthy by assumption.
    apply String.eqb_neq, Hday. }
  pose proof (distanceMeters_settled today ls) as Hsettled.
  pose proof (loadState_settled today ls) as Hsame.
  unfold distanceMeters in Hsettled.
  rewrite loadState_date, Hsettled, (loadState_same_day today _ Hsame).
  rewrite loadState_unfold. cbv zeta. rewrite E. cbn [fst snd distance date].
  rewrite getItem_saveState_distance, getItem_saveState_date. cbn [distance date].
  rewrite or_str_same. repeat split. apply loadState_date.
Qed.

Lemma loadState_day_rollover_witness :
  let ls := Sample.store "5000" "10000" "0.78" Sample.yesterday in
  distance (fst (loadState Sample.today ls)) = 0%float /\
  distance (fst (loadState Sample.today (snd (loadState Sample.today ls)))) = 0%float.
Proof.
  pose proof (loadState_day_rollover Sample.today Sample.yesterday
                (Sample.store "5000" "10000" "0.78" Sample.yesterday)
                ltac:(reflexivity) ltac:(discriminate) ltac:(discriminate)) as H.
  cbv zeta in H. destruct H as (H1 & _ & _ & _ & H2 & _).
  exact (conj H1 H2).
Defined.

(** C9, as the code has it.  For a state with valid fields whose date is
    today and whose three numbers survive storage, [save(state)] followed by
    [load()] returns the same four fields, with [steps] computed anew. *)
Theorem save_load_round_trip (today : string) (st : state) (ls : localStorage) :
  valid_state st = true ->
  date st = today ->
  survives_storage (distance st) ->
  survives_storage_int (goal st) ->
  survives_storage (stride st) ->
  let st' := fst (loadState today (saveState today st ls)) in
  distance st' = distance st /\ goal st' = goal st /\ stride st' = stride st /\
  date st' = date st /\
  steps st' = Some (JS.floor (distance st / stride st)%float).
Proof.
  intros Hvalid Hdate Hd Hg Hs. cbv zeta.
  unfold valid_state, goal_in_range, stride_in_range in Hvalid.
  repeat match goal with
    | H : _ && _ = true |- _ => apply andb_true_iff in H as [? ?]
    end.
  rewrite loadState_unfold. cbv zeta.
  autorewrite with saved.
  red in Hd, Hg, Hs. rewrite Hd, Hg, Hs.
  cbn [or_item]. rewrite Hdate, !or_str_same, String.eqb_refl.
  cbn [fst distance goal stride date steps].
  repeat match goal with
    | H : ?c = true |- context [?c] => rewrite H
    end.
  rewrite (geb_fifth_gtb_zero (stride st)) by assumption.
  cbn [andb]. repeat split.
Qed.

Lemma save_load_round_trip_witness :
  let st := mkState 5000 10000 0.78 Sample.today None in
  let st' := fst (loadState Sample.today (saveState Sample.today st ∅)) in
  distance st' = 5000%float /\ goal st' = 10000%float /\ stride st' = 0.78%float.
Proof.
  pose proof (save_load_round_trip Sample.today
                (mkState 5000 10000 0.78 Sample.today None) ∅
                ltac:(reflexivity) ltac:(reflexivity) ltac:(vm_compute; reflexivity)
                ltac:(vm_compute; reflexivity) ltac:(vm_compute; reflexivity)) as H.
  cbv zeta in H. destruct H as (H1 & H2 & H3 & _).
  exact (conj H1 (conj H2 H3)).
Defined.

(** C9, counterexample.  A state with valid fields that carries yesterday's
    date: after [save(state)], [load()] returns distance 0 and today's date,
    not the state's own 5000 and date. *)
Lemma save_load_stale_date :
  let st := mkState 5000 10000 0.78 Sample.yesterday None in
  let st' := fst (loadState Sample.today (saveState Sample.today st ∅)) in
  valid_state st = true /\
  survives_storage (distance st) /\ survives_storage_int (goal st) /\
  survives_storage (stride st) /\
  distance st' = 0%float /\ (distance st' =? distance st)%float = false /\
  date st' = Sample.today /\ date st' <> date st.
Proof.
  cbv zeta. unfold survives_storage, survives_storage_int.
  repeat split; try (vm_compute; reflexivity).
  vm_compute. discriminate.
Qed.

(** C10, as the code has it.  A confirmed reset writes the goal and the
    stride that [load()] returned just before; when these two numbers survive
    storage, [load()] returns them again after the reset, with distance 0 and
    today's date. *)
Theorem resetData_keeps_settings (today : string) (a : app) :
  let st := fst (loadState today (storage a)) in
  let a' := resetData today true a in
  let st' := fst (loadState today (storage a')) in
  survives_storage_int (goal st) ->
  survives_storage (stride st) ->
  getItem (storage a') STORAGE_KEYS.goal = Some (JS.toStr (goal st)) /\
  getItem (storage a') STORAGE_KEYS.stride = Some (JS.toStr (stride st)) /\
  goal st' = goal st /\ stride st' = stride st /\
  distance st' = 0%float /\ date st' = today /\ lastPos a' = None.
Proof.
  cbv zeta. intros Hg Hs.
  pose proof (loadState_fields_ok today (storage a)) as (_ & Hgok & Hsok).
  cbv zeta in Hgok, Hsok.
  unfold resetData. cbn [negb].
  destruct (loadState today (storage a)) as [st ls]. cbn [fst] in *.
  cbn [storage lastPos].
  rewrite getItem_saveState_goal, getItem_saveState_stride.
  rewrite loadState_unfold. cbv zeta.
  autorewrite with saved.
  cbn [set_date set_distance distance goal stride date or_item].
  red in Hg, Hs. rewrite Hg, Hs, Hgok, Hsok.
  rewrite !or_str_same, String.eqb_refl.
  cbn [fst distance goal stride date]. repeat split.
Qed.

Lemma resetData_keeps_settings_witness :
  let a := Sample.app_of (Sample.store "5000" "12000" "0.8" Sample.today) None in
  let st' := fst (loadState Sample.today (storage (resetData Sample.today true a))) in
  goal st' = 12000%float /\ stride st' = 0.8%float /\ distance st' = 0%float.
Proof.
  pose proof (resetData_keeps_settings Sample.today
                (Sample.app_of (Sample.store "5000" "12000" "0.8" Sample.today) None)
                ltac:(vm_compute; reflexivity) ltac:(vm_compute; reflexivity)) as H.
  cbv zeta in H. destruct H as (_ & _ & H1 & H2 & H3 & _).
  exact (conj H1 (conj H2 H3)).
Defined.

(** C10, counterexample.  A stored goal of 1e21 passes [loadState]'s check
    (finite, at least 100).  A confirmed reset writes it back as [String]
    gives it, in exponent form, where [parseInt] reads only the 1: the goal
    [load()] returns after the reset is the default 10000, not the goal it
    returned before. *)
Lemma resetData_loses_huge_goal :
  let a := Sample.app_of
             (Sample.store "5000" "1000000000000000000000" "0.78" Sample.today) None in
  let a' := resetData Sample.today true a in
  goal (fst (loadState Sample.today (storage a))) = 1e21%float /\
  getItem (storage a') STORAGE_KEYS.goal = Some "1e+21"%string /\
  goal (fst (loadState Sample.today (storage a'))) = 10000%float /\
  (goal (fst (loadState Sample.today (storage a'))) =?
   goal (fst (loadState Sample.today (storage a))))%float = false.
Proof. vm_compute. repeat split; reflexivity. Qed.

(** ** The distance accumulator *)

Section AccumulatorFacts.

Variables Math_sin Math_cos : float -> float.
Variable Math_atan2 : float -> float -> float.

Local Abbreviation handler := (onPosition Math_sin Math_cos Math_atan2).
Local Abbreviation meters := (distanceInMeters Math_sin Math_cos Math_atan2).

(** The haversine distance from a baseline to a position. *)
Local Abbreviation from lp pos :=
  (meters (lat lp) (lon lp) (latitude pos) (longitude pos)).

Lemma untouched_intro (today : string) (a a' : app) :
  lastPos a' = lastPos a ->
  storage a' = snd (loadState today (storage a)) ->
  untouched today a a'.
Proof.
  intros Hl Hs. repeat split; try assumption.
  rewrite Hs. apply distanceMeters_settled.
Qed.

(** C5.  A position whose accuracy is above 25 m changes neither the
    baseline nor the distance, whatever its coordinates, speed and time. *)
Theorem onPosition_low_accuracy (today : string) (now : float) (pos : position) (a : app) :
  (accuracy pos >? MAX_ACCEPTABLE_ACCURACY)%float = true ->
  untouched today a (handler today now pos a).
Proof.
  intros Hacc. unfold onPosition.
  destruct (loadState today (storage a)) as [st ls] eqn:EL.
  rewrite Hacc. apply untouched_intro; cbn [lastPos storage]; [reflexivity |].
  rewrite EL. reflexivity.
Qed.

(** C7.  With a baseline [lp], a position whose elapsed time is zero or
    negative is dropped: the baseline stays and no distance is added. *)
Theorem onPosition_time_anomaly (today : string) (now : float) (pos : position) (a : app)
    (lp : lastpos) :
  lastPos a = Some lp ->
  (elapsed now lp pos <=? 0)%float = true ->
  untouched today a (handler today now pos a).
Proof.
  intros Hlp Hdt. unfold onPosition.
  destruct (loadState today (storage a)) as [st ls] eqn:EL.
  rewrite Hlp. unfold elapsed, sampleTime in Hdt. rewrite Hdt.
  destruct (accuracy pos >? MAX_ACCEPTABLE_ACCURACY)%float;
    (apply untouched_intro; cbn [lastPos storage]; [assumption || (symmetry; assumption) |
                                                   rewrite EL; reflexivity]).
Qed.

(** C6.  A position that passes the accuracy, elapsed-time and speed checks
    and lies less than 0.5 m from the baseline becomes the new baseline and
    adds no distance. *)
Theorem onPosition_noise (today : string) (now : float) (pos : position) (a : app)
    (lp : lastpos) :
  lastPos a = Some lp ->
  (accuracy pos >? MAX_ACCEPTABLE_ACCURACY)%float = false ->
  (elapsed now lp pos <=? 0)%float = false ->
  (from lp pos / elapsed now lp pos >? MAX_SPEED_MPS)%float = false ->
  (from lp pos <? 0.5)%float = true ->
  let a' := handler today now pos a in
  lastPos a' = Some (accepted now pos) /\
  storage a' = snd (loadState today (storage a)) /\
  distanceMeters today (storage a') = distanceMeters today (storage a).
Proof.
  intros Hlp Hacc Hdt Hspeed Hd. cbv zeta.
  apply ltb_not_geb in Hd.
  unfold onPosition.
  destruct (loadState today (storage a)) as [st ls] eqn:EL.
  unfold elapsed, sampleTime in Hdt, Hspeed.
  rewrite Hacc, Hlp, Hdt, Hspeed, Hd. cbn [lastPos storage].
  replace ls with (snd (loadState today (storage a))) by (rewrite EL; reflexivity).
  repeat split. apply distanceMeters_settled.
Qed.

(** C2.  With the baseline [A], a position [B] of good accuracy whose
    implied speed is above 8 m/s is rejected: the baseline stays [A] and no
    distance is added.  A next position [C] of good accuracy, with time
    elapsed and a speed of at most 8 m/s measured from [A], becomes the
    baseline, and the distance written is the one read plus the distance
    from [A] to [C] (when that is at least 0.5 m; otherwise nothing is
    written): the distance from [B] plays no part. *)
Theorem jump_keeps_baseline (today : string) (now1 now2 : float) (A : lastpos)
    (B C : position) (a : app) :
  lastPos a = Some A ->
  (accuracy B >? MAX_ACCEPTABLE_ACCURACY)%float = false ->
  (from A B / elapsed now1 A B >? MAX_SPEED_MPS)%float = true ->
  (accuracy C >? MAX_ACCEPTABLE_ACCURACY)%float = false ->
  (elapsed now2 A C <=? 0)%float = false ->
  (from A C / elapsed now2 A C >? MAX_SPEED_MPS)%float = false ->
  let a1 := handler today now1 B a in
  let a2 := handler today now2 C a1 in
  untouched today a a1 /\
  lastPos a2 = Some (accepted now2 C) /\
  getItem (storage a2) STORAGE_KEYS.distance =
    if (from A C >=? 0.5)%float
    then Some (JS.toStr (distanceMeters today (storage a1) + from A C)%float)
    else getItem (storage a1) STORAGE_KEYS.distance.
Proof.
  intros HA HaccB HspeedB HaccC HdtC HspeedC. cbv zeta.
  assert (H1 : untouched today a (handler today now1 B a)).
  { unfold onPosition.
    destruct (loadState today (storage a)) as [st ls] eqn:EL.
    unfold elapsed, sampleTime in HspeedB. rewrite HaccB, HA, HspeedB.
    destruct (elapsed now1 A B <=? 0)%float eqn:Edt;
      unfold elapsed, sampleTime in Edt; rewrite Edt;
      (apply untouched_intro; cbn [lastPos storage];
       [symmetry; assumption | rewrite EL; reflexivity]). }
  split; [assumption |].
  destruct H1 as (Hlp1 & Hs1 & _). rewrite HA in Hlp1.
  set (a1 := handler today now1 B a) in *.
  assert (Hsettled : snd (loadState today (storage a1)) = storage a1).
  { apply loadState_same_day. rewrite Hs1. apply loadState_settled. }
  unfold distanceMeters.
  unfold onPosition at 1 2.
  destruct (loadState today (storage a1)) as [st ls] eqn:EL. cbn [fst snd] in *.
  subst ls.
  unfold elapsed, sampleTime in HdtC, HspeedC.
  rewrite HaccC, Hlp1, HdtC, HspeedC.
  destruct (from A C >=? 0.5)%float; cbn [lastPos storage]; split; try reflexivity.
  rewrite getItem_saveState_distance. reflexivity.
Qed.


End AccumulatorFacts.

Lemma onPosition_low_accuracy_witness :
  untouched Sample.today Sample.walking
    (RefMath.callback Sample.today 0 Sample.L Sample.walking).
Proof.
  exact (onPosition_low_accuracy RefMath.sin RefMath.cos RefMath.atan2
           Sample.today 0 Sample.L Sample.walking ltac:(vm_compute; reflexivity)).
Defined.

Lemma onPosition_time_anomaly_witness :
  untouched Sample.today Sample.walking
    (RefMath.callback Sample.today 0 Sample.E Sample.walking).
Proof.
  exact (onPosition_time_anomaly RefMath.sin RefMath.cos RefMath.atan2
           Sample.today 0 Sample.E Sample.walking Sample.A
           ltac:(reflexivity) ltac:(vm_compute; reflexivity)).
Defined.

Lemma onPosition_noise_witness :
  let a' := RefMath.callback Sample.today 0 Sample.N Sample.walking in
  lastPos a' = Some (accepted 0 Sample.N) /\
  storage a' = snd (loadState Sample.today (storage Sample.walking)) /\
  distanceMeters Sample.today (storage a') =
    distanceMeters Sample.today (storage Sample.walking).
Proof.
  exact (onPosition_noise RefMath.sin RefMath.cos RefMath.atan2
           Sample.today 0 Sample.N Sample.walking Sample.A
           ltac:(reflexivity) ltac:(vm_compute; reflexivity) ltac:(vm_compute; reflexivity)
           ltac:(vm_compute; reflexivity) ltac:(vm_compute; reflexivity)).
Defined.

Lemma jump_keeps_baseline_witness :
  let a1 := RefMath.callback Sample.today 0 Sample.B Sample.walking in
  let a2 := RefMath.callback Sample.today 0 Sample.C a1 in
  untouched Sample.today Sample.walking a1 /\
  lastPos a2 = Some (accepted 0 Sample.C) /\
  getItem (storage a2) STORAGE_KEYS.distance = Some "5111.1949266443"%string.
Proof.
  exact (jump_keeps_baseline RefMath.sin RefMath.cos RefMath.atan2
           Sample.today 0 0 Sample.A Sample.B Sample.C Sample.walking
           ltac:(reflexivity) ltac:(vm_compute; reflexivity) ltac:(vm_compute; reflexivity)
           ltac:(vm_compute; reflexivity) ltac:(vm_compute; reflexivity)
           ltac:(vm_compute; reflexivity)).
Defined.


(** ** Settings *)

(** C8, as the code has it.  [saveSettings] judges the two fields on what
    [parseInt] and [parseFloat] read in them, the goal first and the stride
    second, and stops at the first value it refuses (not finite, or outside
    100..100000 for the goal, 0.2..2 for the stride).  It then shows that
    field's message, puts the value [load()] returns into that field's input
    and leaves the rest of the page alone, and writes nothing of its own: the
    storage is as [load()] leaves it, which is as it was unless the day
    changed.  A goal that is refused hides even a valid stride; a stride that
    is refused keeps a valid goal from being saved. *)
Theorem saveSettings_rejects (today : string) (a : app) :
  let rawGoal := JS.parseInt (Some (goalInputEl (page a))) in
  let rawStride := JS.parseFloat (Some (strideInputEl (page a))) in
  let st := fst (loadState today (storage a)) in
  let a' := saveSettings today a in
  goal_refused rawGoal = true \/ stride_refused rawStride = true ->
  alerts a' = (if goal_refused rawGoal then goal_alert else stride_alert) :: alerts a /\
  goalInputEl (page a') =
    (if goal_refused rawGoal then JS.toStr (goal st) else goalInputEl (page a)) /\
  strideInputEl (page a') =
    (if goal_refused rawGoal then strideInputEl (page a) else JS.toStr (stride st)) /\
  (stepCountEl (page a'), goalLabelEl (page a'), remainingLabelEl (page a'),
   progressPercentEl (page a'), goalMessageEl (page a'), distanceEl (page a'),
   speedEl (page a'), accuracyEl (page a'), statusEl (page a')) =
  (stepCountEl (page a), goalLabelEl (page a), remainingLabelEl (page a),
   progressPercentEl (page a), goalMessageEl (page a), distanceEl (page a),
   speedEl (page a), accuracyEl (page a), statusEl (page a)) /\
  storage a' = snd (loadState today (storage a)) /\
  (storage a' = storage a \/
   or_item (getItem (storage a) STORAGE_KEYS.date) today <> today) /\
  distanceMeters today (storage a') = distanceMeters today (storage a) /\
  lastPos a' = lastPos a /\ watchId a' = watchId a.
Proof.
  cbv zeta. intros Hbad.
  assert (Hday : snd (loadState today (storage a)) = storage a \/
                 or_item (getItem (storage a) STORAGE_KEYS.date) today <> today).
  { destruct (String.eqb (or_item (getItem (storage a) STORAGE_KEYS.date) today) today)
      eqn:E.
    - left. apply loadState_same_day, String.eqb_eq, E.
    - right. apply String.eqb_neq, E. }
  pose proof (distanceMeters_settled today (storage a)) as Hsettled.
  unfold saveSettings. unfold goal_refused, stride_refused in *.
  destruct (loadState today (storage a)) as [st ls]. cbn [fst snd] in *.
  destruct (negb (JS.isFinite (JS.parseInt (Some (goalInputEl (page a))))) ||
            (JS.parseInt (Some (goalInputEl (page a))) <? 100)%float ||
            (JS.parseInt (Some (goalInputEl (page a))) >? 100000)%float).
  - cbn [alerts page storage lastPos watchId set_goalInput goalInputEl strideInputEl
         stepCountEl goalLabelEl remainingLabelEl progressPercentEl goalMessageEl
         distanceEl speedEl accuracyEl statusEl].
    repeat (split; [first [reflexivity | assumption] |]). reflexivity.
  - destruct Hbad as [Hbad | Hbad]; [discriminate |]. rewrite Hbad.
    cbn [alerts page storage lastPos watchId set_strideInput goalInputEl strideInputEl
         stepCountEl goalLabelEl remainingLabelEl progressPercentEl goalMessageEl
         distanceEl speedEl accuracyEl statusEl].
    repeat (split; [first [reflexivity | assumption] |]). reflexivity.
Qed.

Lemma saveSettings_rejects_witness :
  let a := Sample.settings "50" "0.78" in
  let a' := saveSettings Sample.today a in
  alerts a' = [goal_alert] /\
  goalInputEl (page a') = "10000"%string /\
  strideInputEl (page a') = "0.78"%string /\
  storage a' = storage a.
Proof.
  pose proof (saveSettings_rejects Sample.today (Sample.settings "50" "0.78")
                ltac:(left; vm_compute; reflexivity)) as H.
  cbv zeta in H. destruct H as (H1 & H2 & H3 & _ & H4 & _).
  exact (conj H1 (conj H2 (conj H3 H4))).
Defined.

(** C8, counterexample.  The goal text 150.7 is not an integer, and
    [saveSettings] does not refuse it: [parseInt] reads 150, no message is
    shown, and 150 is saved as the goal. *)
Lemma saveSettings_saves_truncated_goal :
  let a := Sample.settings "150.7" "0.78" in
  let a' := saveSettings Sample.today a in
  let typed := JS.parseFloat (Some (goalInputEl (page a))) in
  typed = 150.7%float /\ (JS.floor typed =? typed)%float = false /\
  alerts a' = [] /\
  getItem (storage a) STORAGE_KEYS.goal = Some "10000"%string /\
  getItem (storage a') STORAGE_KEYS.goal = Some "150"%string /\
  goalInputEl (page a') = "150"%string.
Proof. vm_compute. repeat split; reflexivity. Qed.

(** ** The model run on concrete data *)

(** The runtime: what the parsers and [String] give on the texts the script
    stores. *)
Example parse_and_print :
  JS.parseInt (Some "10000"%string) = 10000%float /\
  JS.parseInt (Some "150.7"%string) = 150%float /\
  JS.parseFloat (Some "0.78"%string) = 0.78%float /\
  JS.isFinite (JS.parseFloat None) = false /\
  JS.toStr 0.78 = "0.78"%string /\
  JS.toStr 5111.1949266443 = "5111.1949266443"%string /\
  JS.toStr 1e21 = "1e+21"%string.
Proof. vm_compute. repeat split; reflexivity. Qed.

(** 100 m at a stride of 0.78 m and a goal of 10000: 128 steps, 9872 to go,
    1 percent. *)
Example updateUI_hundred_meters :
  let p := updateUI (mkState 100 10000 0.78 Sample.today None) no_extras Sample.blank in
  stepCountEl p = 128%float /\ remainingLabelEl p = 9872%float /\
  progressPercentEl p = 1%float /\ goalMessageEl p = ""%string.
Proof. vm_compute. repeat split; reflexivity. Qed.

(** A first fix becomes the baseline and adds nothing; a fix about 111 m away
    a hundred seconds later is accepted and added. *)
Example callback_walk :
  let a0 := Sample.app_of (Sample.store "5000" "10000" "0.78" Sample.today) None in
  let a1 := RefMath.callback Sample.today 0
              (mkPosition 51.5 0 10 None 1000000) a0 in
  let a2 := RefMath.callback Sample.today 0 Sample.C a1 in
  lastPos a1 = Some Sample.A /\ storage a1 = storage a0 /\
  statusEl (page a2) = "Tracking"%string /\
  getItem (storage a2) STORAGE_KEYS.distance = Some "5111.1949266443"%string.
Proof. vm_compute. repeat split; reflexivity. Qed.

(** * Further properties of the script

    ** The store *)

(** X2.  [loadState] is idempotent: run again on the storage it leaves, on
    the same day, it writes nothing, and it returns the same state provided
    the goal and the stride it returned survive storage. *)
Theorem loadState_idempotent (today : string) (ls : localStorage) :
  let st := fst (loadState today ls) in
  let ls' := snd (loadState today ls) in
  survives_storage_int (goal st) ->
  survives_storage (stride st) ->
  loadState today ls' = (st, ls').
Proof.
  cbv zeta. intros Hg Hs.
  pose proof (loadState_fields_ok today ls) as (_ & Hgok & Hsok).
  cbv zeta in Hgok, Hsok. red in Hg, Hs.
  rewrite (loadState_unfold today ls) in *. cbv zeta in *.
  destruct (String.eqb (or_item (getItem ls STORAGE_KEYS.date) today) today) eqn:E;
    cbn [fst snd goal stride] in *.
  - rewrite loadState_unfold. cbv zeta. rewrite E. reflexivity.
  - rewrite loadState_unfold. cbv zeta. autorewrite with saved.
    cbn [distance goal stride date or_item].
    rewrite Hg, Hs, Hgok, Hsok, !or_str_same, String.eqb_refl. reflexivity.
Qed.

Lemma loadState_idempotent_witness :
  let ls := Sample.store "5000" "10000" "0.78" Sample.yesterday in
  loadState Sample.today (snd (loadState Sample.today ls)) =
    (fst (loadState Sample.today ls), snd (loadState Sample.today ls)).
Proof.
  exact (loadState_idempotent Sample.today
           (Sample.store "5000" "10000" "0.78" Sample.yesterday)
           ltac:(vm_compute; reflexivity) ltac:(vm_compute; reflexivity)).
Defined.

(** X3.  Neither [saveState] nor [loadState] touches a storage key other than
    the four of [STORAGE_KEYS]. *)
Theorem storage_frame (today : string) (st : state) (ls : localStorage) (k : string) :
  k <> STORAGE_KEYS.distance -> k <> STORAGE_KEYS.goal ->
  k <> STORAGE_KEYS.stride -> k <> STORAGE_KEYS.date ->
  getItem (saveState today st ls) k = getItem ls k /\
  getItem (snd (loadState today ls)) k = getItem ls k.
Proof.
  intros H1 H2 H3 H4.
  assert (Hsave : forall st', getItem (saveState today st' ls) k = getItem ls k).
  { intros st'. unfold getItem, saveState, setItem.
    rewrite !lookup_insert_ne by congruence. reflexivity. }
  split; [apply Hsave |].
  rewrite loadState_unfold. cbv zeta.
  destruct (String.eqb _ today); cbn [snd]; [reflexivity | apply Hsave].
Qed.

Lemma storage_frame_witness :
  let ls := <["theme"%string := "dark"%string]> (Sample.store "5000" "10000" "0.78"
                                                   Sample.yesterday) in
  getItem (snd (loadState Sample.today ls)) "theme" = Some "dark"%string.
Proof.
  exact (proj2 (storage_frame Sample.today (mkState 0 0 0 "" None)
                  (<["theme"%string := "dark"%string]>
                     (Sample.store "5000" "10000" "0.78" Sample.yesterday))
                  "theme"
                  ltac:(discriminate) ltac:(discriminate)
                  ltac:(discriminate) ltac:(discriminate))).
Defined.

(** X4.  The last [saveState] wins: what an earlier one wrote is overwritten
    whole, so saving twice is saving the second state once. *)
Theorem saveState_overwrites (today : string) (st1 st2 : state) (ls : localStorage) :
  saveState today st2 (saveState today st1 ls) = saveState today st2 ls.
Proof.
  apply map_eq. intros k. unfold saveState, setItem.
  rewrite !lookup_insert. repeat case_decide; reflexivity.
Qed.

(** ** The callback *)

Section AccumulatorMore.

Variables Math_sin Math_cos : float -> float.
Variable Math_atan2 : float -> float -> float.

Local Abbreviation handler := (onPosition Math_sin Math_cos Math_atan2).
Local Abbreviation meters := (distanceInMeters Math_sin Math_cos Math_atan2).
Local Abbreviation from lp pos :=
  (meters (lat lp) (lon lp) (latitude pos) (longitude pos)).
Local Abbreviation turned_away := (rejected Math_sin Math_cos Math_atan2).
Local Abbreviation stream := (feed Math_sin Math_cos Math_atan2).

(** A position that any of the three tests turns away. *)
Lemma onPosition_rejected (today : string) (now : float) (pos : position) (a : app)
    (lp : lastpos) :
  lastPos a = Some lp ->
  turned_away now lp pos = true ->
  untouched today a (handler today now pos a).
Proof.
  intros Hlp Hrej. unfold rejected, elapsed, sampleTime in Hrej. unfold onPosition.
  destruct (loadState today (storage a)) as [st ls] eqn:EL. rewrite Hlp.
  destruct (accuracy pos >? MAX_ACCEPTABLE_ACCURACY)%float;
    [apply untouched_intro; cbn [lastPos storage];
     [symmetry; assumption | rewrite EL; reflexivity] |].
  cbn [orb] in Hrej.
  match goal with
  | |- context [if ?c then _ else _] => destruct c eqn:Edt
  end;
    [apply untouched_intro; cbn [lastPos storage];
     [symmetry; assumption | rewrite EL; reflexivity] |].
  cbn [orb] in Hrej. rewrite Hrej.
  apply untouched_intro; cbn [lastPos storage];
    [symmetry; assumption | rewrite EL; reflexivity].
Qed.

(** What the callback does to the storage and to the baseline depends on
    the storage and the baseline alone. *)
Lemma onPosition_ext (today : string) (now : float) (pos : position) (a b : app) :
  storage a = storage b -> lastPos a = lastPos b ->
  storage (handler today now pos a) = storage (handler today now pos b) /\
  lastPos (handler today now pos a) = lastPos (handler today now pos b).
Proof.
  intros Hs Hl. unfold onPosition. rewrite Hs, Hl.
  destruct (loadState today (storage b)) as [st ls].
  repeat match goal with
    | |- context [match ?c with _ => _ end] =>
        lazymatch c with
        | context [match _ with _ => _ end] => fail
        | _ => destruct c
        end
    end; cbn [storage lastPos]; split; reflexivity.
Qed.

(** X5.  The first position of good accuracy: with no baseline it becomes
    the baseline, nothing is added to the distance, and the status reads
    "Tracking". *)
Theorem onPosition_first_fix (today : string) (now : float) (pos : position) (a : app) :
  lastPos a = None ->
  (accuracy pos >? MAX_ACCEPTABLE_ACCURACY)%float = false ->
  let a' := handler today now pos a in
  lastPos a' = Some (accepted now pos) /\
  storage a' = snd (loadState today (storage a)) /\
  distanceMeters today (storage a') = distanceMeters today (storage a) /\
  statusEl (page a') = "Tracking"%string.
Proof.
  intros Hlp Hacc. cbv zeta. unfold onPosition.
  destruct (loadState today (storage a)) as [st ls] eqn:EL.
  rewrite Hacc, Hlp. cbn [lastPos storage page].
  replace ls with (snd (loadState today (storage a))) by (rewrite EL; reflexivity).
  repeat split. apply distanceMeters_settled.
Qed.

(** X6.  A position that passes every test and lies at least 0.5 m from the
    baseline: it becomes the baseline; the distance written at once is the
    distance [load()] reported plus the increment; the goal, the stride and
    the date written are those [load()] returned; the page shows the steps of
    the new total and the status "Tracking". *)
Theorem onPosition_accepts (today : string) (now : float) (pos : position) (a : app)
    (lp : lastpos) :
  lastPos a = Some lp ->
  turned_away now lp pos = false ->
  (from lp pos >=? 0.5)%float = true ->
  let st := fst (loadState today (storage a)) in
  let total := (distance st + from lp pos)%float in
  let a' := handler today now pos a in
  lastPos a' = Some (accepted now pos) /\
  getItem (storage a') STORAGE_KEYS.distance = Some (JS.toStr total) /\
  getItem (storage a') STORAGE_KEYS.goal = Some (JS.toStr (goal st)) /\
  getItem (storage a') STORAGE_KEYS.stride = Some (JS.toStr (stride st)) /\
  getItem (storage a') STORAGE_KEYS.date = Some today /\
  stepCountEl (page a') = JS.floor (total / stride st)%float /\
  distanceEl (page a') = total /\
  statusEl (page a') = "Tracking"%string.
Proof.
  intros Hlp Hrej Hd. cbv zeta.
  pose proof (loadState_date today (storage a)) as Hdate.
  unfold rejected, elapsed, sampleTime in Hrej.
  apply orb_false_iff in Hrej as [Hrej Hspeed].
  apply orb_false_iff in Hrej as [Hacc Hdt].
  unfold onPosition.
  destruct (loadState today (storage a)) as [st ls] eqn:EL. cbn [fst] in *.
  rewrite Hacc, Hlp, Hdt, Hspeed, Hd. cbn [lastPos storage page].
  autorewrite with saved.
  cbn [set_distance distance goal stride date updateUI stepCountEl distanceEl statusEl
       e_status or_str JS.truthy_str].
  rewrite Hdate, or_str_same. repeat split.
Qed.

(** X7.  However many positions in a row are turned away (for low accuracy,
    for a time stamp not after the baseline's, or as a jump), the baseline
    stays where it was and the distance [load()] reports is the same. *)
Theorem rejected_run_keeps_baseline (today : string) (samples : list (float * position))
    (a : app) (lp : lastpos) :
  lastPos a = Some lp ->
  forallb (fun s => turned_away (fst s) lp (snd s)) samples = true ->
  lastPos (stream today samples a) = Some lp /\
  distanceMeters today (storage (stream today samples a)) =
    distanceMeters today (storage a).
Proof.
  revert a. induction samples as [| [now pos] rest IH]; intros a Hlp Hall.
  - split; [assumption | reflexivity].
  - cbn [forallb fst snd] in Hall. apply andb_true_iff in Hall as [Hrej Hrest].
    cbn [feed].
    destruct (onPosition_rejected today now pos a lp Hlp Hrej) as (Hl & _ & Hdist).
    rewrite Hlp in Hl.
    destruct (IH _ Hl Hrest) as [IHl IHd].
    split; [assumption | congruence].
Qed.

(** X8.  A jump reported without a speed of its own (none, or zero) shows the
    implied speed that condemned it. *)
Theorem jump_shows_implied_speed (today : string) (now : float) (pos : position) (a : app)
    (lp : lastpos) :
  lastPos a = Some lp ->
  (accuracy pos >? MAX_ACCEPTABLE_ACCURACY)%float = false ->
  (elapsed now lp pos <=? 0)%float = false ->
  (from lp pos / elapsed now lp pos >? MAX_SPEED_MPS)%float = true ->
  speed pos = None \/ speed pos = Some 0%float ->
  let a' := handler today now pos a in
  speedEl (page a') = Some (from lp pos / elapsed now lp pos)%float /\
  statusEl (page a') = "Tracking (ignoring jump)"%string.
Proof.
  intros Hlp Hacc Hdt Hspeed Hnone. cbv zeta.
  unfold elapsed, sampleTime in *. unfold onPosition.
  destruct (loadState today (storage a)) as [st ls].
  rewrite Hacc, Hlp, Hdt, Hspeed. cbn [page updateUI speedEl statusEl e_speed e_status].
  destruct Hnone as [-> | ->]; split; reflexivity.
Qed.

(** X9.  Every position delivered, accepted or not, puts the stored goal and
    stride back into the two settings inputs: what was typed there and not
    saved is gone. *)
Theorem onPosition_refreshes_inputs (today : string) (now : float) (pos : position)
    (a : app) :
  let st := fst (loadState today (storage a)) in
  let a' := handler today now pos a in
  goalInputEl (page a') = JS.toStr (goal st) /\
  strideInputEl (page a') = JS.toStr (stride st).
Proof.
  cbv zeta. unfold onPosition.
  destruct (loadState today (storage a)) as [st ls]. cbn [fst].
  repeat match goal with
    | |- context [match ?c with _ => _ end] =>
        lazymatch c with
        | context [match _ with _ => _ end] => fail
        | _ => destruct c
        end
    end; split; reflexivity.
Qed.

End AccumulatorMore.

Lemma onPosition_first_fix_witness :
  let a := Sample.app_of (Sample.store "5000" "10000" "0.78" Sample.today) None in
  let a' := RefMath.callback Sample.today 0 Sample.C a in
  lastPos a' = Some (accepted 0 Sample.C) /\
  storage a' = snd (loadState Sample.today (storage a)) /\
  distanceMeters Sample.today (storage a') = distanceMeters Sample.today (storage a) /\
  statusEl (page a') = "Tracking"%string.
Proof.
  exact (onPosition_first_fix RefMath.sin RefMath.cos RefMath.atan2 Sample.today 0
           Sample.C (Sample.app_of (Sample.store "5000" "10000" "0.78" Sample.today) None)
           ltac:(reflexivity) ltac:(vm_compute; reflexivity)).
Defined.

Lemma onPosition_accepts_witness :
  let a' := RefMath.callback Sample.today 0 Sample.C Sample.walking in
  lastPos a' = Some (accepted 0 Sample.C) /\
  getItem (storage a') STORAGE_KEYS.distance = Some "5111.1949266443"%string.
Proof.
  pose proof (onPosition_accepts RefMath.sin RefMath.cos RefMath.atan2 Sample.today 0
                Sample.C Sample.walking Sample.A
                ltac:(reflexivity) ltac:(vm_compute; reflexivity)
                ltac:(vm_compute; reflexivity)) as H.
  cbv zeta in H. destruct H as (H1 & H2 & _).
  exact (conj H1 H2).
Defined.

Lemma rejected_run_keeps_baseline_witness :
  let run := [(0%float, Sample.L); (0%float, Sample.E); (0%float, Sample.B)] in
  lastPos (feed RefMath.sin RefMath.cos RefMath.atan2 Sample.today run Sample.walking)
    = Some Sample.A.
Proof.
  exact (proj1 (rejected_run_keeps_baseline RefMath.sin RefMath.cos RefMath.atan2
                  Sample.today
                  [(0%float, Sample.L); (0%float, Sample.E); (0%float, Sample.B)]
                  Sample.walking Sample.A
                  ltac:(reflexivity) ltac:(vm_compute; reflexivity))).
Defined.

Lemma jump_shows_implied_speed_witness :
  statusEl (page (RefMath.callback Sample.today 0 Sample.B Sample.walking))
    = "Tracking (ignoring jump)"%string.
Proof.
  exact (proj2 (jump_shows_implied_speed RefMath.sin RefMath.cos RefMath.atan2
                  Sample.today 0 Sample.B Sample.walking Sample.A
                  ltac:(reflexivity) ltac:(vm_compute; reflexivity)
                  ltac:(vm_compute; reflexivity) ltac:(vm_compute; reflexivity)
                  ltac:(left; reflexivity))).
Defined.

(** ** The session: start, pause, error, reset *)

Section SessionFacts.

Variables Math_sin Math_cos : float -> float.
Variable Math_atan2 : float -> float -> float.

Local Abbreviation handler := (onPosition Math_sin Math_cos Math_atan2).

(** X10.  Stopping, by Pause or by a sensor error, and starting again keeps
    the baseline and the storage: the callback then treats the next position
    exactly as it would have without the stop, measuring it from the position
    accepted last before it. *)
Theorem restart_keeps_baseline (today : string) (now : float) (pos : position)
    (a stopped : app) (err : geo_error) (id : Z) :
  stopped = pauseTracking a \/ stopped = onError err a ->
  let resumed := startTracking (Some id) stopped in
  watchId resumed = Some id /\
  lastPos resumed = lastPos a /\
  storage resumed = storage a /\
  lastPos (handler today now pos resumed) = lastPos (handler today now pos a) /\
  storage (handler today now pos resumed) = storage (handler today now pos a).
Proof.
  intros Hstop. cbv zeta.
  assert (H : watchId (startTracking (Some id) stopped) = Some id /\
              lastPos (startTracking (Some id) stopped) = lastPos a /\
              storage (startTracking (Some id) stopped) = storage a).
  { destruct Hstop as [-> | ->].
    - unfold pauseTracking. destruct (watchId a) eqn:Ew; cbn; [| rewrite Ew]; auto.
    - destruct err; cbn; auto. }
  destruct H as (Hw & Hl & Hs).
  destruct (onPosition_ext Math_sin Math_cos Math_atan2 today now pos _ _ Hs Hl)
    as [Hs' Hl'].
  auto.
Qed.

(** X11.  Start is idempotent: while a watch is open, another Start changes
    nothing, so Start pressed twice leaves the application as Start pressed
    once does. *)
Theorem startTracking_twice (id1 id2 : Z) (a : app) :
  startTracking (Some id2) (startTracking (Some id1) a) = startTracking (Some id1) a.
Proof.
  unfold startTracking. destruct (watchId a) eqn:Ew.
  - rewrite Ew. reflexivity.
  - reflexivity.
Qed.

(** X12.  After a confirmed reset, the next position delivered adds nothing:
    the distance [load()] reports is still 0, and the position is the new
    baseline if its accuracy is good, no baseline at all otherwise. *)
Theorem reset_then_sample (today : string) (now : float) (pos : position) (a : app) :
  let a1 := resetData today true a in
  let a2 := handler today now pos a1 in
  distanceMeters today (storage a1) = 0%float /\
  distanceMeters today (storage a2) = 0%float /\
  lastPos a2 = if (accuracy pos >? MAX_ACCEPTABLE_ACCURACY)%float then None
               else Some (accepted now pos).
Proof.
  cbv zeta.
  assert (H1 : distanceMeters today (storage (resetData today true a)) = 0%float).
  { unfold resetData. cbn [negb].
    destruct (loadState today (storage a)) as [st ls]. cbn [storage].
    unfold distanceMeters. rewrite loadState_unfold. cbv zeta.
    autorewrite with saved. cbn [set_date set_distance distance date or_item].
    rewrite !or_str_same, String.eqb_refl. reflexivity. }
  assert (Hl : lastPos (resetData today true a) = None).
  { unfold resetData. cbn [negb].
    destruct (loadState today (storage a)) as [st ls]. reflexivity. }
  split; [assumption |].
  set (a1 := resetData today true a) in *.
  unfold onPosition.
  pose proof (distanceMeters_settled today (storage a1)) as Hsettled.
  destruct (loadState today (storage a1)) as [st ls]. cbn [snd] in Hsettled.
  rewrite Hl.
  destruct (accuracy pos >? MAX_ACCEPTABLE_ACCURACY)%float; cbn [storage lastPos];
    (split; [congruence | reflexivity]).
Qed.

End SessionFacts.

Lemma restart_keeps_baseline_witness :
  let resumed := startTracking (Some 2) (pauseTracking Sample.walking) in
  watchId resumed = Some 2 /\
  lastPos (RefMath.callback Sample.today 0 Sample.C resumed) =
    lastPos (RefMath.callback Sample.today 0 Sample.C Sample.walking).
Proof.
  pose proof (restart_keeps_baseline RefMath.sin RefMath.cos RefMath.atan2 Sample.today 0
                Sample.C Sample.walking (pauseTracking Sample.walking) PERMISSION_DENIED 2
                ltac:(left; reflexivity)) as H.
  cbv zeta in H. destruct H as (H1 & _ & _ & H2 & _).
  exact (conj H1 H2).
Defined.

(** ** Settings and start-up *)

Lemma isFinite_not_nan (x : float) : JS.isFinite x = true -> Prim2SF x <> S754_nan.
Proof.
  unfold JS.isFinite, is_finite, is_nan. rewrite FloatAxioms.eqb_spec. intros H E.
  rewrite E in H. discriminate.
Qed.

Lemma SFcompare_total (f g : spec_float) :
  f <> S754_nan -> g <> S754_nan -> exists c, SFcompare f g = Some c.
Proof.
  intros Hf Hg.
  destruct f as [sf | sf | | sf mf ef]; [| | congruence |];
    (destruct g as [sg | sg | | sg mg eg]; [| | congruence |]);
    cbn [SFcompare]; eexists; reflexivity.
Qed.

(** Two numbers, neither [NaN]: when the first is not below the second it is
    at least the second. *)
Lemma ltb_false_geb (x y : float) :
  Prim2SF x <> S754_nan -> Prim2SF y <> S754_nan ->
  (x <? y)%float = false -> (x >=? y)%float = true.
Proof.
  rewrite ltb_spec, leb_spec. unfold SFltb, SFleb. intros Hx Hy.
  rewrite (SFcompare_antisym (Prim2SF x) (Prim2SF y)).
  destruct (SFcompare_total _ _ Hx Hy) as [c ->].
  destruct c; cbn; congruence.
Qed.

(** X13.  When [saveSettings] refuses neither field, it shows no message and
    writes both: the goal written is within 100..100000 and the stride within
    0.2..2, the distance and the date written are those [load()] returned,
    and the two inputs show what was written. *)
Theorem saveSettings_accepts (today : string) (a : app) :
  let rawGoal := JS.parseInt (Some (goalInputEl (page a))) in
  let rawStride := JS.parseFloat (Some (strideInputEl (page a))) in
  let st := fst (loadState today (storage a)) in
  let a' := saveSettings today a in
  goal_refused rawGoal = false ->
  stride_refused rawStride = false ->
  goal_in_range rawGoal = true /\ stride_in_range rawStride = true /\
  alerts a' = alerts a /\
  getItem (storage a') STORAGE_KEYS.goal = Some (JS.toStr rawGoal) /\
  getItem (storage a') STORAGE_KEYS.stride = Some (JS.toStr rawStride) /\
  getItem (storage a') STORAGE_KEYS.distance = Some (JS.toStr (distance st)) /\
  getItem (storage a') STORAGE_KEYS.date = Some today /\
  goalInputEl (page a') = JS.toStr rawGoal /\
  strideInputEl (page a') = JS.toStr rawStride /\
  lastPos a' = lastPos a.
Proof.
  cbv zeta. intros Hg Hs.
  pose proof (loadState_date today (storage a)) as Hdate.
  unfold saveSettings. unfold goal_refused, stride_refused in Hg, Hs.
  rewrite Hg, Hs.
  apply orb_false_iff in Hg as [Hg Hg3]. apply orb_false_iff in Hg as [Hg1 Hg2].
  apply orb_false_iff in Hs as [Hs Hs3]. apply orb_false_iff in Hs as [Hs1 Hs2].
  apply negb_false_iff in Hg1, Hs1.
  pose proof (isFinite_not_nan _ Hg1) as Hgn.
  pose proof (isFinite_not_nan _ Hs1) as Hsn.
  split.
  { unfold goal_in_range. rewrite Hg1.
    rewrite (ltb_false_geb _ 100) by (assumption || (apply isFinite_not_nan; reflexivity)).
    rewrite (ltb_false_geb 100000 _) by (assumption || (apply isFinite_not_nan; reflexivity)).
    reflexivity. }
  split.
  { unfold stride_in_range. rewrite Hs1.
    rewrite (ltb_false_geb _ 0.2) by (assumption || (apply isFinite_not_nan; reflexivity)).
    rewrite (ltb_false_geb 2 _) by (assumption || (apply isFinite_not_nan; reflexivity)).
    reflexivity. }
  destruct (loadState today (storage a)) as [st ls]. cbn [fst] in *.
  cbn [alerts storage page lastPos]. autorewrite with saved.
  cbn [set_goal set_stride distance goal stride date updateUI goalInputEl strideInputEl].
  rewrite Hdate, or_str_same. repeat split.
Qed.

Lemma saveSettings_accepts_witness :
  let a' := saveSettings Sample.today (Sample.settings "50000" "0.9") in
  alerts a' = [] /\
  getItem (storage a') STORAGE_KEYS.goal = Some "50000"%string /\
  getItem (storage a') STORAGE_KEYS.stride = Some "0.9"%string.
Proof.
  pose proof (saveSettings_accepts Sample.today (Sample.settings "50000" "0.9")
                ltac:(vm_compute; reflexivity) ltac:(vm_compute; reflexivity)) as H.
  cbv zeta in H. destruct H as (_ & _ & H1 & H2 & H3 & _).
  exact (conj H1 (conj H2 H3)).
Defined.

(** X14.  First run: with none of the four keys in storage, [init] writes
    the defaults (distance 0, goal 10000, stride 0.78, today's date) and the
    page shows zero steps of a goal of 10000 and "Waiting for permission". *)
Theorem init_first_run (today : string) (a : app) :
  getItem (storage a) STORAGE_KEYS.distance = None ->
  getItem (storage a) STORAGE_KEYS.goal = None ->
  getItem (storage a) STORAGE_KEYS.stride = None ->
  getItem (storage a) STORAGE_KEYS.date = None ->
  let a' := init today a in
  getItem (storage a') STORAGE_KEYS.distance = Some "0"%string /\
  getItem (storage a') STORAGE_KEYS.goal = Some "10000"%string /\
  getItem (storage a') STORAGE_KEYS.stride = Some "0.78"%string /\
  getItem (storage a') STORAGE_KEYS.date = Some today /\
  stepCountEl (page a') = 0%float /\ goalLabelEl (page a') = 10000%float /\
  remainingLabelEl (page a') = 10000%float /\ progressPercentEl (page a') = 0%float /\
  statusEl (page a') = "Waiting for permission"%string.
Proof.
  intros Hd Hg Hs Hdate. cbv zeta. unfold init.
  rewrite loadState_unfold. cbv zeta. rewrite Hd, Hg, Hs, Hdate.
  cbn [or_item]. rewrite String.eqb_refl. cbn [storage page].
  autorewrite with saved. cbn [date]. rewrite or_str_same.
  repeat split.
Qed.

Lemma init_first_run_witness :
  getItem (storage (init Sample.today (Sample.app_of ∅ None))) STORAGE_KEYS.goal
    = Some "10000"%string.
Proof.
  refine (proj1 (proj2 (init_first_run Sample.today (Sample.app_of ∅ None) _ _ _ _)));
    vm_compute; reflexivity.
Defined.

(** ** Rounding gives a float of the format, with the sign asked for *)

Section RoundingValid.

Variables prec emax : Z.
Hypothesis prec_pos : 0 < prec.

Local Abbreviation fexp := (SpecFloat.fexp prec emax).
Local Abbreviation emin := (SpecFloat.emin prec emax).

Lemma digits2_pos_unique (p : positive) (d : Z) :
  2 ^ (d - 1) <= Z.pos p < 2 ^ d -> Z.pos (digits2_pos p) = d.
Proof.
  intros [Hlo Hhi].
  pose proof (digits2_pos_bounds p) as [Hlo' Hhi'].
  assert (0 < d).
  { destruct (Z.lt_ge_cases 0 d) as [|Hd]; [assumption |].
    assert (2 ^ d <= 2 ^ 0) by (apply Z.pow_le_mono_r; lia).
    change (2 ^ 0) with 1 in *. lia. }
  assert (H1 : 2 ^ (d - 1) < 2 ^ Z.pos (digits2_pos p)) by lia.
  assert (H2 : 2 ^ (Z.pos (digits2_pos p) - 1) < 2 ^ d) by lia.
  apply Z.pow_lt_mono_r_iff in H1; [| lia | lia].
  apply Z.pow_lt_mono_r_iff in H2; lia.
Qed.

(** Dropping [k] low bits of a positive number that keeps a bit drops [k]
    digits. *)
Lemma digits2_pos_div (p q : positive) (k : Z) :
  0 <= k -> Z.pos q = Z.pos p / 2 ^ k ->
  Z.pos (digits2_pos q) = Z.pos (digits2_pos p) - k.
Proof.
  intros Hk Hq.
  pose proof (digits2_pos_bounds p) as [Hlo Hhi].
  assert (Hpow : 0 < 2 ^ k) by (apply Z.pow_pos_nonneg; lia).
  assert (Hk' : k < Z.pos (digits2_pos p)).
  { destruct (Z.lt_ge_cases k (Z.pos (digits2_pos p))) as [|Hge]; [assumption |].
    assert (2 ^ Z.pos (digits2_pos p) <= 2 ^ k) by (apply Z.pow_le_mono_r; lia).
    rewrite Z.div_small in Hq by lia. lia. }
  apply digits2_pos_unique. rewrite Hq. split.
  - apply Z.div_le_lower_bound; [assumption |].
    rewrite <- Z.pow_add_r by lia.
    replace (k + (Z.pos (digits2_pos p) - k - 1)) with (Z.pos (digits2_pos p) - 1) by lia.
    assumption.
  - apply Z.div_lt_upper_bound; [assumption |].
    rewrite <- Z.pow_add_r by lia.
    replace (k + (Z.pos (digits2_pos p) - k)) with (Z.pos (digits2_pos p)) by lia.
    assumption.
Qed.

(** Rounding a mantissa that is not negative never gives [NaN], and gives the
    sign it was asked for. *)
Lemma binary_round_aux_signed (s : bool) (mx ex : Z) (lx : location) :
  0 <= mx -> SFsigned s (binary_round_aux prec emax s mx ex lx).
Proof.
  intros Hmx. unfold binary_round_aux.
  pose proof (shr_fexp_spec prec emax mx ex lx Hmx) as [Hm1 _].
  destruct (shr_fexp prec emax mx ex lx) as [mrs1 e1]. cbn [fst snd] in Hm1.
  assert (H1 : 0 <= shr_m mrs1).
  { rewrite Hm1. apply Z.div_pos; [assumption | apply Z.pow_pos_nonneg; lia]. }
  pose proof (round_nearest_even_ge (shr_m mrs1) (loc_of_shr_record mrs1)) as Hm2.
  pose proof (shr_fexp_spec prec emax _ e1 loc_Exact
                (Z.le_trans _ _ _ H1 Hm2)) as [Hm3 _].
  destruct (shr_fexp prec emax _ e1 loc_Exact) as [mrs3 e3]. cbn [fst snd] in Hm3.
  assert (H3 : 0 <= shr_m mrs3).
  { rewrite Hm3. apply Z.div_pos; [lia | apply Z.pow_pos_nonneg; lia]. }
  destruct (shr_m mrs3) as [| m3 | m3]; [reflexivity | | lia].
  destruct (e3 <=? emax - prec); reflexivity.
Qed.

Lemma binary_round_signed (s : bool) (m : positive) (e : Z) :
  SFsigned s (binary_round prec emax s m e).
Proof.
  unfold binary_round. destruct (shl_align m e _) as [mz ez].
  apply binary_round_aux_signed. lia.
Qed.

Lemma binary_normalize_not_nan (m e : Z) (szero : bool) :
  binary_normalize prec emax m e szero <> S754_nan.
Proof.
  destruct m as [| p | p]; cbn [binary_normalize]; [discriminate | |];
    match goal with
    | |- binary_round _ _ ?s ?m ?e <> _ =>
        pose proof (binary_round_signed s m e) as H;
        destruct (binary_round prec emax s m e); [discriminate .. | contradiction | discriminate]
    end.
Qed.

(** A positive mantissa whose exponent is at or below the format's for its
    magnitude rounds to a float of the format. *)
Lemma binary_round_aux_valid (s : bool) (mz : positive) (ez : Z) (lx : location) :
  ez <= fexp (Z.pos (digits2_pos mz) + ez) ->
  SpecFloat.valid_binary prec emax (binary_round_aux prec emax s (Z.pos mz) ez lx) = true.
Proof.
  intros Hez. unfold binary_round_aux.
  pose proof (shr_fexp_spec prec emax (Z.pos mz) ez lx ltac:(lia)) as [Hm1 He1].
  destruct (shr_fexp prec emax (Z.pos mz) ez lx) as [mrs1 e1]. cbn [fst snd] in Hm1, He1.
  cbn [Zdigits2] in Hm1, He1.
  set (D := Z.pos (digits2_pos mz) + ez) in *.
  replace (Z.max 0 (fexp D - ez)) with (fexp D - ez) in Hm1, He1 by lia.
  assert (He1' : e1 = fexp D) by lia. clear He1.
  assert (Hpow1 : 0 < 2 ^ (fexp D - ez)) by (apply Z.pow_pos_nonneg; lia).
  assert (H1 : 0 <= shr_m mrs1) by (rewrite Hm1; apply Z.div_pos; lia).
  set (m2 := round_nearest_even (shr_m mrs1) (loc_of_shr_record mrs1)).
  assert (Hm2 : m2 = shr_m mrs1 \/ m2 = shr_m mrs1 + 1).
  { unfold m2. destruct (loc_of_shr_record mrs1) as [| []]; cbn; auto.
    destruct (Z.even (shr_m mrs1)); auto. }
  pose proof (shr_fexp_spec prec emax m2 e1 loc_Exact ltac:(lia)) as [Hm3 He3].
  destruct (shr_fexp prec emax m2 e1 loc_Exact) as [mrs3 e3]. cbn [fst snd] in Hm3, He3.
  destruct (shr_m mrs3) as [| m3 | m3] eqn:Em3; [reflexivity | | reflexivity].
  destruct (e3 <=? emax - prec) eqn:Ebound; [| reflexivity].
  cbn [SpecFloat.valid_binary]. unfold bounded. rewrite Ebound, andb_true_r.
  unfold canonical_mantissa. apply Z.eqb_eq.
  (* the digits of [m2], and where its magnitude lies *)
  destruct m2 as [| p2 | p2] eqn:Ep2; [| | lia].
  { rewrite Z.div_0_l in Hm3 by (apply Z.pow_nonzero; lia). discriminate. }
  cbn [Zdigits2] in Hm3, He3.
  set (D2 := Z.pos (digits2_pos p2) + e1) in *.
  assert (HD2 : fexp D <= fexp D2 <= fexp D + 1 /\
                (fexp D2 = fexp D + 1 -> 2 <= Z.pos (digits2_pos p2))).
  { destruct (shr_m mrs1) as [| p1 | p1] eqn:Ep1; [| | lia].
    - (* the first shift left nothing: the value is below the least float *)
      assert (p2 = 1%positive) by lia. subst p2. cbn [digits2_pos] in D2.
      assert (Z.pos mz < 2 ^ (fexp D - ez)).
      { destruct (Z.lt_ge_cases (Z.pos mz) (2 ^ (fexp D - ez))) as [|Hge]; [assumption |].
        assert (1 <= Z.pos mz / 2 ^ (fexp D - ez))
          by (apply Z.div_le_lower_bound; lia). lia. }
      pose proof (digits2_pos_bounds mz) as [Hlo _].
      assert (Hlt : 2 ^ (Z.pos (digits2_pos mz) - 1) < 2 ^ (fexp D - ez)) by lia.
      apply Z.pow_lt_mono_r_iff in Hlt; [| lia | lia].
      unfold D2. unfold SpecFloat.fexp, SpecFloat.emin in *. lia.
    - (* it left [p1], with the digits that remain *)
      pose proof (digits2_pos_div mz p1 (fexp D - ez) ltac:(lia) Hm1) as Hd1.
      assert (Hd2 : Z.pos (digits2_pos p1) <= Z.pos (digits2_pos p2)
                    <= Z.pos (digits2_pos p1) + 1).
      { destruct Hm2 as [Hm2 | Hm2]; [injection Hm2 as ->; lia |].
        split; [apply digits2_pos_le; lia |].
        pose proof (digits2_pos_bounds p1) as [_ Hhi].
        pose proof (digits2_pos_bounds p2) as [Hlo _].
        assert (Hlt : 2 ^ (Z.pos (digits2_pos p2) - 1) < 2 ^ (Z.pos (digits2_pos p1) + 1)).
        { rewrite Z.pow_add_r by lia. lia. }
        apply Z.pow_lt_mono_r_iff in Hlt; lia. }
      unfold D2. rewrite He1'. unfold D in *.
      unfold SpecFloat.fexp, SpecFloat.emin in *. lia. }
  destruct HD2 as [[HD2lo HD2hi] HD2two].
  destruct (Z.eq_dec (fexp D2) (fexp D)) as [Heq | Hne].
  - (* no second shift *)
    replace (Z.max 0 (fexp D2 - e1)) with 0 in Hm3, He3 by lia.
    rewrite Z.pow_0_r, Z.div_1_r in Hm3. injection Hm3 as ->.
    replace e3 with e1 by lia. fold D2. lia.
  - (* the rounding carried into a new digit: one more shift *)
    replace (Z.max 0 (fexp D2 - e1)) with 1 in Hm3, He3 by lia.
    pose proof (digits2_pos_div p2 m3 1 ltac:(lia) Hm3) as Hd3.
    rewrite Hd3. replace (Z.pos (digits2_pos p2) - 1 + e3) with D2 by (unfold D2; lia).
    lia.
Qed.

Lemma binary_round_valid (s : bool) (m : positive) (e : Z) :
  SpecFloat.valid_binary prec emax (binary_round prec emax s m e) = true.
Proof.
  unfold binary_round.
  pose proof (shl_align_spec m e (fexp (Z.pos (digits2_pos m) + e))) as [He Hm].
  destruct (shl_align m e (fexp (Z.pos (digits2_pos m) + e))) as [mz ez].
  cbn [fst snd] in He, Hm.
  apply binary_round_aux_valid.
  assert (Hd : Z.pos (digits2_pos mz) = Z.pos (digits2_pos m) + (e - ez)).
  { apply digits2_pos_unique. rewrite Hm.
    pose proof (digits2_pos_bounds m) as [Hlo Hhi].
    assert (0 < 2 ^ (e - ez)) by (apply Z.pow_pos_nonneg; lia).
    replace (Z.pos (digits2_pos m) + (e - ez) - 1)
      with (Z.pos (digits2_pos m) - 1 + (e - ez)) by lia.
    rewrite !Z.pow_add_r by lia. nia. }
  rewrite Hd. replace (Z.pos (digits2_pos m) + (e - ez) + ez)
    with (Z.pos (digits2_pos m) + e) by lia.
  lia.
Qed.

Lemma binary_normalize_valid (m e : Z) (szero : bool) :
  SpecFloat.valid_binary prec emax (binary_normalize prec emax m e szero) = true.
Proof.
  destruct m; cbn [binary_normalize]; [reflexivity | apply binary_round_valid ..].
Qed.

End RoundingValid.

(** ** What the page shows stays within bounds *)

Lemma Prim2SF_of_Z (z : Z) :
  Prim2SF (JS.of_Z z) = binary_normalize prec emax z 0 false.
Proof.
  unfold JS.of_Z. apply Prim2SF_SF2Prim.
  apply binary_normalize_valid. reflexivity.
Qed.

Lemma SFsigned_nonneg (f : spec_float) : SFsigned false f -> SFnonneg f.
Proof. destruct f as [s | s | | s m e]; cbn; intros H; subst; try exact I; assumption. Qed.

(** A positive integer is a Number that is not negative. *)
Lemma of_Z_pos_nonneg (q : Z) : 0 < q -> SFnonneg (Prim2SF (JS.of_Z q)).
Proof.
  intros Hq. rewrite Prim2SF_of_Z. destruct q as [| p | p]; try lia.
  cbn [binary_normalize]. apply SFsigned_nonneg.
  apply binary_round_signed.
Qed.

(** A finite number is a zero or has a mantissa. *)
Lemma isFinite_cases (x : float) :
  JS.isFinite x = true ->
  (exists s, Prim2SF x = S754_zero s) \/ (exists s m e, Prim2SF x = S754_finite s m e).
Proof.
  unfold JS.isFinite, is_finite, is_nan, is_infinity.
  rewrite !FloatAxioms.eqb_spec, abs_spec.
  change (Prim2SF infinity) with (S754_infinity false).
  destruct (Prim2SF x) as [s | [] | | s m e]; cbn; intros H; try discriminate;
    [left; eexists; reflexivity | right; do 3 eexists; reflexivity].
Qed.

(** A finite number above zero has a mantissa and no sign. *)
Lemma finite_positive (y : float) :
  JS.isFinite y = true -> (y >? 0)%float = true ->
  exists m e, Prim2SF y = S754_finite false m e.
Proof.
  intros Hfin Hpos. rewrite ltb_spec in Hpos.
  change (Prim2SF 0) with (S754_zero false) in Hpos.
  destruct (isFinite_cases y Hfin) as [[s E] | (s & m & e & E)]; rewrite E in *.
  - discriminate.
  - destruct s; cbn in Hpos; [discriminate | eauto].
Qed.

Lemma floor_nonneg (x : float) :
  SFnonneg (Prim2SF x) -> SFnonneg (Prim2SF (JS.floor x)).
Proof.
  intros Hx. unfold JS.floor.
  destruct (Prim2SF x) as [s | s | | s m e] eqn:E; rewrite ?E; try assumption.
  destruct s; [contradiction |].
  destruct (0 <=? e) eqn:Ee; [rewrite E; exact I |].
  apply Z.leb_gt in Ee.
  assert (Hq : 0 <= Z.pos m / 2 ^ (- e))
    by (apply Z.div_pos; [lia | apply Z.pow_pos_nonneg; lia]).
  destruct (Z.pos m / 2 ^ (- e) =? 0) eqn:Eq0; [exact I |].
  apply Z.eqb_neq in Eq0. apply of_Z_pos_nonneg. lia.
Qed.

Lemma round_nonneg (x : float) :
  SFnonneg (Prim2SF x) -> SFnonneg (Prim2SF (JS.round x)).
Proof.
  intros Hx. unfold JS.round.
  destruct (Prim2SF x) as [s | s | | s m e] eqn:E; rewrite ?E; try assumption.
  destruct s; [contradiction |].
  destruct (0 <=? e) eqn:Ee; [rewrite E; exact I |].
  apply Z.leb_gt in Ee.
  assert (Hq : 0 <= (2 * Z.pos m + 2 ^ (- e)) / 2 ^ (- e + 1)).
  { assert (0 < 2 ^ (- e)) by (apply Z.pow_pos_nonneg; lia).
    apply Z.div_pos; [lia | apply Z.pow_pos_nonneg; lia]. }
  destruct ((2 * Z.pos m + 2 ^ (- e)) / 2 ^ (- e + 1) =? 0) eqn:Eq0; [exact I |].
  apply Z.eqb_neq in Eq0. apply of_Z_pos_nonneg. lia.
Qed.

(** Dividing a number that is not negative by a finite number above zero
    gives a number that is not negative. *)
Lemma div_nonneg (x y : float) :
  (x >=? 0)%float = true -> JS.isFinite y = true -> (y >? 0)%float = true ->
  SFnonneg (Prim2SF (x / y)).
Proof.
  intros Hx Hfin Hpos. apply leb_zero_nonneg in Hx.
  destruct (finite_positive y Hfin Hpos) as (my & ey & Ey).
  rewrite div_spec, Ey. unfold SF64div.
  destruct (Prim2SF x) as [sx | [] | | [] mx ex]; cbn in Hx; try contradiction;
    cbn [SFdiv xorb]; try exact I.
  destruct (SFdiv_core_binary prec emax (Z.pos mx) ex (Z.pos my) ey) as [[mz ez] lz] eqn:Ec.
  apply SFsigned_nonneg, binary_round_aux_signed.
  unfold SFdiv_core_binary in Ec.
  match type of Ec with
  | (let '(q, r) := Z.div_eucl ?a ?b in _) = _ =>
      assert (Ha : 0 <= a);
      [| pose proof (Z.div_pos a b Ha ltac:(lia)) as Hdiv; unfold Z.div in Hdiv;
         destruct (Z.div_eucl a b) as [q r]; cbn [fst] in Hdiv;
         injection Ec as <- _ _; exact Hdiv]
  end.
  match goal with
  | |- 0 <= match ?sh with _ => _ end =>
      destruct sh; [lia | apply Z.shiftl_nonneg; lia | lia]
  end.
Qed.

(** Multiplying a number that is not negative by a finite number above zero
    gives a number that is not negative. *)
Lemma mul_nonneg (x y : float) :
  SFnonneg (Prim2SF x) -> JS.isFinite y = true -> (y >? 0)%float = true ->
  SFnonneg (Prim2SF (x * y)).
Proof.
  intros Hx Hfin Hpos.
  destruct (finite_positive y Hfin Hpos) as (my & ey & Ey).
  rewrite mul_spec, Ey. unfold SF64mul.
  destruct (Prim2SF x) as [sx | [] | | [] mx ex]; cbn in Hx; try contradiction;
    cbn [SFmul xorb]; try exact I.
  apply SFsigned_nonneg, binary_round_aux_signed. lia.
Qed.

(** A finite number less any number that is not negative is not [NaN]. *)
Lemma sub_not_nan (x y : float) :
  JS.isFinite x = true -> SFnonneg (Prim2SF y) -> Prim2SF (x - y) <> S754_nan.
Proof.
  intros Hfin Hy. rewrite sub_spec. unfold SF64sub.
  destruct (isFinite_cases x Hfin) as [[sx ->] | (sx & mx & ex & ->)];
    destruct (Prim2SF y) as [sy | [] | | [] my ey]; cbn in Hy; try contradiction;
    cbn [SFsub]; try discriminate;
    try (destruct sx, sy; discriminate);
    apply binary_normalize_not_nan; reflexivity.
Qed.

Lemma not_nan_is_nan (x : float) : Prim2SF x <> S754_nan -> is_nan x = false.
Proof.
  intros H. unfold is_nan. rewrite FloatAxioms.eqb_spec. unfold SFeqb.
  destruct (Prim2SF x) as [s | [] | | [] m e]; cbn; try reflexivity; try congruence;
    rewrite Z.compare_refl;
    change (Pos.compare_cont Eq m m) with (m ?= m)%positive;
    rewrite Pos.compare_refl; reflexivity.
Qed.

Lemma nonneg_not_nan (f : spec_float) : SFnonneg f -> f <> S754_nan.
Proof. destruct f; cbn; [discriminate | discriminate | contradiction | discriminate]. Qed.

Lemma ltb_leb (x y : float) : (x <? y)%float = true -> (x <=? y)%float = true.
Proof.
  rewrite ltb_spec, leb_spec. unfold SFltb, SFleb.
  destruct (SFcompare (Prim2SF x) (Prim2SF y)) as [[]|]; congruence.
Qed.

(** [Math.max(x, 0)] of a number is at least zero. *)
Lemma max_zero_nonneg (x : float) :
  Prim2SF x <> S754_nan -> (JS.max x 0 >=? 0)%float = true.
Proof.
  intros Hx. unfold JS.max. rewrite (not_nan_is_nan x Hx).
  change (is_nan 0) with false. cbn [orb].
  destruct (x <? 0)%float eqn:E1; [reflexivity |].
  assert (Hge : (x >=? 0)%float = true).
  { apply ltb_false_geb; [assumption | discriminate | assumption]. }
  destruct (0 <? x)%float; [assumption |].
  destruct (get_sign x); [reflexivity | assumption].
Qed.

(** [Math.min(x, 100)] of a number that is not negative lies in 0..100. *)
Lemma min_hundred_bounds (x : float) :
  SFnonneg (Prim2SF x) ->
  (JS.min x 100 >=? 0)%float = true /\ (JS.min x 100 <=? 100)%float = true.
Proof.
  intros Hx. pose proof (nonneg_not_nan _ Hx) as Hn.
  apply leb_zero_nonneg in Hx.
  unfold JS.min. rewrite (not_nan_is_nan x Hn).
  change (is_nan 100) with false. cbn [orb].
  destruct (x <? 100)%float eqn:E1; [split; [assumption | apply ltb_leb, E1] |].
  destruct (100 <? x)%float eqn:E2; [split; reflexivity |].
  assert (Hle : (x <=? 100)%float = true).
  { apply (ltb_false_geb 100 x); [discriminate | assumption | assumption]. }
  destruct (get_sign x); split; (assumption || reflexivity).
Qed.

Lemma geb_hundred_gtb_zero (g : float) : (g >=? 100)%float = true -> (g >? 0)%float = true.
Proof.
  rewrite leb_spec, ltb_spec.
  change (Prim2SF 100) with (S754_finite false 7036874417766400 (-46)).
  change (Prim2SF 0) with (S754_zero false).
  destruct (Prim2SF g) as [sg | [] | | [] m e]; cbn; congruence.
Qed.

(** The steps of a distance that is not negative, at a finite stride above
    zero, are not negative. *)
Lemma steps_nonneg (d s : float) :
  (d >=? 0)%float = true -> JS.isFinite s = true -> (s >? 0)%float = true ->
  (JS.floor (d / s) >=? 0)%float = true.
Proof.
  intros Hd Hsf Hs. apply leb_zero_nonneg, floor_nonneg, div_nonneg; assumption.
Qed.

(** The percentage of steps that are not negative, against a finite goal
    above zero, capped at 100. *)
Lemma percent_bounds (n g : float) :
  (n >=? 0)%float = true -> JS.isFinite g = true -> (g >? 0)%float = true ->
  let percent := JS.min (JS.round ((n / g) * 100)%float) 100%float in
  (percent >=? 0)%float = true /\ (percent <=? 100)%float = true.
Proof.
  intros Hn Hgf Hg. cbv zeta.
  apply min_hundred_bounds, round_nonneg, mul_nonneg; [| reflexivity | reflexivity].
  apply div_nonneg; assumption.
Qed.

(** X15.  For a state whose distance is not negative, whose goal is finite
    and at least 100 and whose stride is finite and above zero, [updateUI]
    shows a step count that is not negative, remaining steps that are not
    negative, and a percentage between 0 and 100. *)
Theorem updateUI_bounds (st : state) (ex : extras) (p : dom) :
  (distance st >=? 0)%float = true ->
  JS.isFinite (goal st) = true -> (goal st >=? 100)%float = true ->
  JS.isFinite (stride st) = true -> (stride st >? 0)%float = true ->
  let p' := updateUI st ex p in
  (stepCountEl p' >=? 0)%float = true /\
  (remainingLabelEl p' >=? 0)%float = true /\
  (progressPercentEl p' >=? 0)%float = true /\
  (progressPercentEl p' <=? 100)%float = true.
Proof.
  intros Hd Hgf Hg Hsf Hs. cbv zeta.
  cbn [updateUI stepCountEl remainingLabelEl progressPercentEl].
  pose proof (geb_hundred_gtb_zero _ Hg) as Hg0.
  pose proof (steps_nonneg _ _ Hd Hsf Hs) as Hsteps.
  split; [assumption |].
  split; [apply max_zero_nonneg, sub_not_nan;
          [assumption | apply leb_zero_nonneg; assumption] |].
  rewrite Hg0. apply percent_bounds; assumption.
Qed.

Lemma updateUI_bounds_witness :
  let p' := updateUI (mkState 100 10000 0.78 Sample.today None) no_extras Sample.blank in
  (stepCountEl p' >=? 0)%float = true /\
  (remainingLabelEl p' >=? 0)%float = true /\
  (progressPercentEl p' >=? 0)%float = true /\
  (progressPercentEl p' <=? 100)%float = true.
Proof.
  exact (updateUI_bounds (mkState 100 10000 0.78 Sample.today None) no_extras Sample.blank
           ltac:(reflexivity) ltac:(reflexivity) ltac:(reflexivity)
           ltac:(reflexivity) ltac:(reflexivity)).
Defined.

Section DisplayFacts.

Variables Math_sin Math_cos : float -> float.
Variable Math_atan2 : float -> float -> float.

(** X16.  Whatever the storage holds and whatever position arrives, after
    the callback the page shows a step count and remaining steps that are not
    negative and a percentage between 0 and 100. *)
Theorem onPosition_display_bounds (today : string) (now : float) (pos : position)
    (a : app) :
  let p' := page (onPosition Math_sin Math_cos Math_atan2 today now pos a) in
  (stepCountEl p' >=? 0)%float = true /\
  (remainingLabelEl p' >=? 0)%float = true /\
  (progressPercentEl p' >=? 0)%float = true /\
  (progressPercentEl p' <=? 100)%float = true.
Proof.
  cbv zeta.
  pose proof (loadState_fields_ok today (storage a)) as (Hd & Hg & Hs).
  cbv zeta in Hd, Hg, Hs.
  apply andb_true_iff in Hd as [_ Hd].
  apply andb_true_iff in Hg as [Hgf Hg].
  apply andb_true_iff in Hs as [Hsf Hs].
  unfold onPosition.
  destruct (loadState today (storage a)) as [st ls]. cbn [fst] in *.
  assert (Hshow : forall st' ex,
            (distance st' >=? 0)%float = true ->
            goal st' = goal st -> stride st' = stride st ->
            let p' := updateUI st' ex (page a) in
            (stepCountEl p' >=? 0)%float = true /\
            (remainingLabelEl p' >=? 0)%float = true /\
            (progressPercentEl p' >=? 0)%float = true /\
            (progressPercentEl p' <=? 100)%float = true).
  { intros st' ex Hd' Eg Es. cbv zeta.
    cbn [updateUI stepCountEl remainingLabelEl progressPercentEl].
    rewrite Eg, Es, (geb_hundred_gtb_zero _ Hg).
    pose proof (steps_nonneg _ _ Hd' Hsf Hs) as Hsteps.
    split; [assumption |].
    split; [apply max_zero_nonneg, sub_not_nan;
            [assumption | apply leb_zero_nonneg; assumption] |].
    apply percent_bounds; [assumption | assumption | apply geb_hundred_gtb_zero, Hg]. }
  destruct (accuracy pos >? MAX_ACCEPTABLE_ACCURACY)%float;
    [apply Hshow; auto |].
  destruct (lastPos a) as [lp |]; [| apply Hshow; auto].
  match goal with
  | |- context [if ?c then _ else _] => destruct c; [apply Hshow; auto |]
  end.
  match goal with
  | |- context [if ?c then _ else _] => destruct c; [apply Hshow; auto |]
  end.
  match goal with
  | |- context [if ?c then _ else _] => destruct c eqn:Ed; [| apply Hshow; auto]
  end.
  cbn [page]. apply Hshow; [| reflexivity | reflexivity].
  cbn [set_distance distance].
  apply add_nonneg_nonneg; [assumption | apply geb_half_geb_zero, Ed].
Qed.

End DisplayFacts.

(** ** More on the store, the settings and the callback *)

(** X1.  Whatever the storage holds, the state [loadState] returns has a
    finite distance that is not negative, a finite goal of at least 100, a
    finite stride above zero, today's date, and steps that are the floor of
    distance over stride and are not negative. *)
Theorem loadState_invariant (today : string) (ls : localStorage) :
  let st := fst (loadState today ls) in
  JS.isFinite (distance st) = true /\ (distance st >=? 0)%float = true /\
  JS.isFinite (goal st) = true /\ (goal st >=? 100)%float = true /\
  JS.isFinite (stride st) = true /\ (stride st >? 0)%float = true /\
  date st = today /\
  steps st = Some (JS.floor (distance st / stride st)%float) /\
  (JS.floor (distance st / stride st) >=? 0)%float = true.
Proof.
  cbv zeta.
  pose proof (loadState_fields_ok today ls) as (Hd & Hg & Hs). cbv zeta in Hd, Hg, Hs.
  apply andb_true_iff in Hd as [Hd1 Hd2].
  apply andb_true_iff in Hg as [Hg1 Hg2].
  apply andb_true_iff in Hs as [Hs1 Hs2].
  repeat (split; [assumption |]).
  split; [apply loadState_date |].
  split; [| apply steps_nonneg; assumption].
  rewrite loadState_unfold. cbv zeta.
  destruct (String.eqb _ today); reflexivity.
Qed.

(** X17.  Settings that [saveSettings] accepts are the settings [load()]
    returns next, given that the two numbers survive storage. *)
Theorem saveSettings_then_load (today : string) (a : app) :
  let rawGoal := JS.parseInt (Some (goalInputEl (page a))) in
  let rawStride := JS.parseFloat (Some (strideInputEl (page a))) in
  let st' := fst (loadState today (storage (saveSettings today a))) in
  goal_refused rawGoal = false ->
  stride_refused rawStride = false ->
  survives_storage_int rawGoal ->
  survives_storage rawStride ->
  goal st' = rawGoal /\ stride st' = rawStride.
Proof.
  cbv zeta. intros Hg Hs Hsg Hss.
  unfold saveSettings. unfold goal_refused, stride_refused in Hg, Hs.
  rewrite Hg, Hs.
  apply orb_false_iff in Hg as [Hg _]. apply orb_false_iff in Hg as [Hg1 Hg2].
  apply orb_false_iff in Hs as [Hs _]. apply orb_false_iff in Hs as [Hs1 Hs2].
  apply negb_false_iff in Hg1, Hs1.
  pose proof (ltb_false_geb _ 100 (isFinite_not_nan _ Hg1) ltac:(discriminate) Hg2) as Hg100.
  pose proof (ltb_false_geb _ 0.2 (isFinite_not_nan _ Hs1) ltac:(discriminate) Hs2) as Hs02.
  apply geb_fifth_gtb_zero in Hs02.
  destruct (loadState today (storage a)) as [st ls]. cbn [storage].
  rewrite loadState_unfold. cbv zeta. autorewrite with saved.
  cbn [set_goal set_stride goal stride].
  red in Hsg, Hss. rewrite Hsg, Hss, Hg1, Hs1, Hg100, Hs02.
  destruct (String.eqb _ today); split; reflexivity.
Qed.

Lemma saveSettings_then_load_witness :
  let st' := fst (loadState Sample.today
                    (storage (saveSettings Sample.today (Sample.settings "50000" "0.9")))) in
  goal st' = 50000%float /\ stride st' = 0.9%float.
Proof.
  exact (saveSettings_then_load Sample.today (Sample.settings "50000" "0.9")
           ltac:(vm_compute; reflexivity) ltac:(vm_compute; reflexivity)
           ltac:(vm_compute; reflexivity) ltac:(vm_compute; reflexivity)).
Defined.
